(** * The plugin operation registries of the virtualization platform

    A shallow embedding of [dlpx/virtualization/platform/_plugin.py]: the
    three registries [DiscoveryOperations], [LinkedOperations] and
    [VirtualOperations], their decorators (one slot per operation) and their
    [_internal_*] wrappers (unpack the request, call the bound
    implementation, pack the response).

    Python objects are mutable and wrappers can raise, so every method is a
    computation in a small monad that threads the registry object ([self]),
    the trace of implementation calls made so far, and ends in an exception
    or a value. *)

From Stdlib Require Import String List ZArith Bool Lia DecimalString.
Import ListNotations.
Open Scope string_scope.

Set Implicit Arguments.

(** ** Exceptions *)

(** The exceptions that travel through this file: the [RuntimeError]s the
    registries raise themselves, the [AssertionError] of a failed [assert],
    and whatever a collaborator raises ([json.loads], a [from_dict], an
    implementation), kept as class name and message. *)
Inductive Exception : Type :=
| RuntimeError (message : string)
| AssertionError
| OtherError (class message : string).

Definition Result (A : Type) : Type := (Exception + A)%type.

(** ** What the file imports *)

(** The file imports the [json] module and, inside each wrapper, the classes
    of [generated.definitions], which belong to the plugin and are produced
    at build time.  Neither is part of this file, nor is the schema's
    connection message, which the wrappers hand over untouched.  They are the
    parameters of the development.  [Dict] is what [json.loads] returns and
    [to_dict] produces. *)
Class Imports : Type := {
  RemoteConnection : Type;
  Dict : Type;
  json_loads : string -> Result Dict;
  json_dumps : Dict -> string;
  RepositoryDefinition : Type;
  RepositoryDefinition_from_dict : Dict -> Result RepositoryDefinition;
  RepositoryDefinition_to_dict : RepositoryDefinition -> Dict;
  SourceConfigDefinition : Type;
  SourceConfigDefinition_from_dict : Dict -> Result SourceConfigDefinition;
  SourceConfigDefinition_to_dict : SourceConfigDefinition -> Dict;
  LinkedSourceDefinition : Type;
  LinkedSourceDefinition_from_dict : Dict -> Result LinkedSourceDefinition;
  VirtualSourceDefinition : Type;
  VirtualSourceDefinition_from_dict : Dict -> Result VirtualSourceDefinition;
  SnapshotDefinition : Type;
  SnapshotDefinition_from_dict : Dict -> Result SnapshotDefinition;
  SnapshotDefinition_to_dict : SnapshotDefinition -> Dict
}.

(** [X.from_dict(json.loads(s))]: the parse error, if any, comes first. *)
Definition from_dict_loads {I : Imports} {T : Type}
    (from_dict : Dict -> Result T) (s : string) : Result T :=
  match json_loads s with
  | inl e => inl e
  | inr d => from_dict d
  end.

(** ** Schema messages *)

(** Modelled from the spec: the generated schema module [common_pb2] is not
    under src/.  Each message has the fields the wrappers read or write;
    a string field that was never set reads as the empty string, and an
    integer field holds 32 signed bits: assigning more raises. *)
Module common_pb2.

(** The values an [int32] field takes. *)
Definition int32 (v : Z) : bool := ((- 2 ^ 31 <=? v) && (v <? 2 ^ 31))%Z.

(** [message.field = v] on an [int32] field. *)
Definition set_int32 (v : Z) : Result Z :=
  if int32 v then inr v
  else inl (OtherError "ValueError"
              ("Value out of range: " ++ NilZero.string_of_int (Z.to_int v))).

Module PluginDefinedObject.
Record t : Type := { json : string }.
End PluginDefinedObject.

Module Repository.
Record t : Type := { parameters : PluginDefinedObject.t }.
End Repository.

Module SourceConfig.
Record t : Type := { parameters : PluginDefinedObject.t }.
End SourceConfig.

Module Snapshot.
Record t : Type := { parameters : PluginDefinedObject.t }.
End Snapshot.

Module LinkedSource.
Record t : Type := { guid : string; parameters : PluginDefinedObject.t }.
End LinkedSource.

Module RemoteHost.
Record t : Type := {
  name : string;
  reference : string;
  binary_path : string;
  scratch_path : string
}.
End RemoteHost.

Module RemoteEnvironment.
Record t : Type := {
  name : string;
  reference : string;
  host : RemoteHost.t
}.
End RemoteEnvironment.

Module SingleEntireMount.
Record t : Type := {
  remote_environment : RemoteEnvironment.t;
  mount_path : string;
  shared_path : string
}.
End SingleEntireMount.

Module SingleSubsetMount.
Record t : Type := {
  remote_environment : RemoteEnvironment.t;
  mount_path : string;
  shared_path : string
}.
End SingleSubsetMount.

Module OwnershipSpec.
Record t : Type := { uid : Z; gid : Z }.
End OwnershipSpec.

Module DirectSource.
Record t {I : Imports} : Type := {
  linked_source : LinkedSource.t;
  connection : RemoteConnection
}.
End DirectSource.

Module StagedSource.
Record t {I : Imports} : Type := {
  linked_source : LinkedSource.t;
  connection : RemoteConnection;
  staged_mount : SingleEntireMount.t
}.
End StagedSource.

Module VirtualSource.
Record t {I : Imports} : Type := {
  guid : string;
  connection : RemoteConnection;
  parameters : PluginDefinedObject.t
}.
End VirtualSource.

End common_pb2.

(** Modelled from the spec: the generated schema module [platform_pb2] is not
    under src/.  A request is read field by field, and a wrapper reads only
    the fields of its own request message; one record with the fields of all
    request messages serves every wrapper.  A response is its [return_value],
    tagged with the name of the response message. *)
Module platform_pb2.

Inductive StatusValue : Type := ACTIVE | INACTIVE.

(** The status values are declared in the result messages: [ACTIVE] is an
    attribute of the class [StagedStatusResult]. *)
Definition StagedStatusResult_ACTIVE : Result StatusValue := inr ACTIVE.

(** The response messages declare no status value: reading [ACTIVE] off
    the class [VirtualStatusResponse] raises. *)
Definition VirtualStatusResponse_ACTIVE : Result StatusValue :=
  inl (OtherError "AttributeError"
         "type object 'VirtualStatusResponse' has no attribute 'ACTIVE'").

Module Request.
Record t {I : Imports} : Type := {
  source_connection : RemoteConnection;
  repository : common_pb2.Repository.t;
  source_config : common_pb2.SourceConfig.t;
  snapshot : common_pb2.Snapshot.t;
  direct_source : common_pb2.DirectSource.t;
  staged_source : common_pb2.StagedSource.t;
  virtual_source : common_pb2.VirtualSource.t
}.
End Request.

Inductive Response : Type :=
| RepositoryDiscoveryResponse (repositories : list common_pb2.Repository.t)
| SourceConfigDiscoveryResponse (source_configs : list common_pb2.SourceConfig.t)
| DirectPreSnapshotResponse
| DirectPostSnapshotResponse (snapshot : common_pb2.Snapshot.t)
| StagedPreSnapshotResponse
| StagedPostSnapshotResponse (snapshot : common_pb2.Snapshot.t)
| StartStagingResponse
| StopStagingResponse
| StagedStatusResponse (status : StatusValue)
| StagedWorkerResponse
| StagedMountSpecResponse (staged_mount : common_pb2.SingleEntireMount.t)
                          (ownership_spec : option common_pb2.OwnershipSpec.t)
| ConfigureResponse (source_config : common_pb2.SourceConfig.t)
| UnconfigureResponse
| ReconfigureResponse (source_config : common_pb2.SourceConfig.t)
| StartResponse
| StopResponse
| VirtualPreSnapshotResponse
| VirtualPostSnapshotResponse (snapshot : common_pb2.Snapshot.t)
| VirtualStatusResponse (status : StatusValue)
| InitializeResponse
| VirtualMountSpecResponse (ownership_spec : option common_pb2.OwnershipSpec.t)
                           (mounts : list common_pb2.SingleSubsetMount.t).

End platform_pb2.

(** ** The classes of [dlpx.virtualization.platform] *)

(** Modelled from the spec: the value classes the file imports from its own
    package ([VirtualSource], [DirectSource], [StagedSource], [Mount]) and the
    ones its implementations return ([Status], the mount specification with
    its ownership) are not under src/.  Each is the record of the keyword
    arguments its constructor is called with, or of the attributes the
    wrappers read. *)
Module platform.

Module Mount.
Record t : Type := {
  remote_environment : common_pb2.RemoteEnvironment.t;
  mount_path : string;
  shared_path : option string
}.
End Mount.

Module OwnershipSpecification.
Record t : Type := { uid : Z; gid : Z }.
End OwnershipSpecification.

Module MountSpecification.
Record t : Type := {
  mounts : list Mount.t;
  ownership_specification : option OwnershipSpecification.t
}.
End MountSpecification.

Module Status.
Inductive t : Type := ACTIVE | INACTIVE.
Definition value (s : t) : platform_pb2.StatusValue :=
  match s with
  | ACTIVE => platform_pb2.ACTIVE
  | INACTIVE => platform_pb2.INACTIVE
  end.
End Status.

Module DirectSource.
Record t {I : Imports} : Type := {
  guid : string;
  connection : RemoteConnection;
  parameters : LinkedSourceDefinition
}.
End DirectSource.

Module StagedSource.
Record t {I : Imports} : Type := {
  guid : string;
  connection : RemoteConnection;
  parameters : LinkedSourceDefinition;
  mount : Mount.t
}.
End StagedSource.

Module VirtualSource.
Record t {I : Imports} : Type := {
  guid : string;
  connection : RemoteConnection;
  parameters : VirtualSourceDefinition
}.
End VirtualSource.

End platform.

(** Truth value of a [shared_path]: [None] and the empty string are false. *)
Definition truthy_path (p : option string) : bool :=
  match p with
  | Some s => negb (String.eqb s EmptyString)
  | None => false
  end.

(** ** Implementations, calls and the monad of methods *)

Section Methods.
Context {I : Imports}.

(** The objects a wrapper passes to an implementation. *)
Inductive PyObject : Type :=
| PyRemoteConnection (c : RemoteConnection)
| PyRepositoryDefinition (r : RepositoryDefinition)
| PySourceConfigDefinition (c : SourceConfigDefinition)
| PySnapshotDefinition (s : SnapshotDefinition)
| PyDirectSource (d : platform.DirectSource.t)
| PyStagedSource (s : platform.StagedSource.t)
| PyVirtualSource (v : platform.VirtualSource.t).

(** Every implementation is called with keyword arguments only. *)
Definition Kwargs : Type := list (string * PyObject).

(** An implementation is the plugin author's function: given the keyword
    arguments it raises or returns.  [R] is the type of what the operation
    is documented to return. *)
Definition Implementation (R : Type) : Type := Kwargs -> Result R.

(** One entry of the trace: which operation's implementation was called,
    and with what. *)
Record Call : Type := { operation : string; kwargs : Kwargs }.

(** A method of an object of class [S]: from the object and the trace so
    far to the object and the trace afterwards, and an exception or a
    value.  What was assigned before a [raise] stays assigned. *)
Definition M (S A : Type) : Type :=
  S -> list Call -> S * list Call * Result A.

Definition ret {S A : Type} (a : A) : M S A :=
  fun self trace => (self, trace, inr a).

Definition bind {S A B : Type} (m : M S A) (k : A -> M S B) : M S B :=
  fun self trace =>
    match m self trace with
    | (self', trace', inl e) => (self', trace', inl e)
    | (self', trace', inr a) => k a self' trace'
    end.

Definition raise {S A : Type} (e : Exception) : M S A :=
  fun self trace => (self, trace, inl e).

(** [self.attr] *)
Definition getattr {S A : Type} (attr : S -> A) : M S A :=
  fun self trace => (self, trace, inr (attr self)).

(** [self.attr = v], given the record update for [attr] *)
Definition setattr {S : Type} (update : S -> S) : M S unit :=
  fun self trace => (update self, trace, inr tt).

(** An expression that touches neither the object nor the trace. *)
Definition eval {S A : Type} (r : Result A) : M S A :=
  fun self trace => (self, trace, r).

(** The call of an implementation with keyword arguments, recorded in the
    trace under the operation's name.
    An exception of the implementation is the exception of the call. *)
Definition call {S R : Type} (name : string) (impl : Implementation R)
    (kw : Kwargs) : M S R :=
  fun self trace => (self, (trace ++ [{| operation := name; kwargs := kw |}])%list, impl kw).

(** [assert b] *)
Definition assert {S : Type} (b : bool) : M S unit :=
  if b then ret tt else raise AssertionError.

End Methods.

Notation "x <- m ;; k" := (bind m (fun x => k))
  (at level 61, m at next level, right associativity).
Notation "m ;;; k" := (bind m (fun _ => k))
  (at level 61, right associativity).

(** The two messages of the registries, as the source spells them. *)
Definition already_defined (name : string) : Exception :=
  RuntimeError ("An implementation for " ++ name ++ "() operation has "
                ++ "already been defined.").

Definition not_defined (name : string) : Exception :=
  RuntimeError ("An implementation for the " ++ name ++ "() operation has "
                ++ "not been defined.").

(** ** Unpacking a request *)

(** The expressions every wrapper repeats: the paths to the payload strings
    of a request, and the constructor calls that build the source objects
    from it. *)
Section Unpacking.
Context {I : Imports}.
Import common_pb2 platform_pb2.

Definition repository_json (request : Request.t) : string :=
  PluginDefinedObject.json (Repository.parameters (Request.repository request)).

Definition source_config_json (request : Request.t) : string :=
  PluginDefinedObject.json (SourceConfig.parameters (Request.source_config request)).

Definition snapshot_json (request : Request.t) : string :=
  PluginDefinedObject.json (Snapshot.parameters (Request.snapshot request)).

Definition direct_source_json (request : Request.t) : string :=
  PluginDefinedObject.json (LinkedSource.parameters
    (DirectSource.linked_source (Request.direct_source request))).

Definition staged_source_json (request : Request.t) : string :=
  PluginDefinedObject.json (LinkedSource.parameters
    (StagedSource.linked_source (Request.staged_source request))).

Definition virtual_source_json (request : Request.t) : string :=
  PluginDefinedObject.json (VirtualSource.parameters (Request.virtual_source request)).

(** [DirectSource(guid=request.direct_source.linked_source.guid,
    connection=request.direct_source.connection, parameters=...)] *)
Definition new_DirectSource (request : Request.t)
    (parameters : LinkedSourceDefinition) : platform.DirectSource.t :=
  {| platform.DirectSource.guid :=
       LinkedSource.guid (DirectSource.linked_source (Request.direct_source request));
     platform.DirectSource.connection :=
       DirectSource.connection (Request.direct_source request);
     platform.DirectSource.parameters := parameters |}.

(** [Mount(remote_environment=..., mount_path=..., shared_path=...)], all
    three read from [request.staged_source.staged_mount] *)
Definition new_Mount (request : Request.t) : platform.Mount.t :=
  let staged_mount := StagedSource.staged_mount (Request.staged_source request) in
  {| platform.Mount.remote_environment := SingleEntireMount.remote_environment staged_mount;
     platform.Mount.mount_path := SingleEntireMount.mount_path staged_mount;
     platform.Mount.shared_path := Some (SingleEntireMount.shared_path staged_mount) |}.

(** [StagedSource(guid=request.staged_source.linked_source.guid,
    connection=request.staged_source.connection, parameters=..., mount=...)] *)
Definition new_StagedSource (request : Request.t)
    (parameters : LinkedSourceDefinition) (mount : platform.Mount.t)
    : platform.StagedSource.t :=
  {| platform.StagedSource.guid :=
       LinkedSource.guid (StagedSource.linked_source (Request.staged_source request));
     platform.StagedSource.connection :=
       StagedSource.connection (Request.staged_source request);
     platform.StagedSource.parameters := parameters;
     platform.StagedSource.mount := mount |}.

(** [VirtualSource(guid=request.virtual_source.guid,
    connection=request.virtual_source.connection, parameters=...)] *)
Definition new_VirtualSource (request : Request.t)
    (parameters : VirtualSourceDefinition) : platform.VirtualSource.t :=
  {| platform.VirtualSource.guid := VirtualSource.guid (Request.virtual_source request);
     platform.VirtualSource.connection :=
       VirtualSource.connection (Request.virtual_source request);
     platform.VirtualSource.parameters := parameters |}.

(** [l[i]] *)
Definition subscript {A : Type} (l : list A) (i : nat) : Result A :=
  match nth_error l i with
  | Some a => inr a
  | None => inl (OtherError "IndexError" "list index out of range")
  end.

(** Both mount-specification wrappers define the same local function:
    uid, then gid, assigned to the integer fields of a new message. *)
Definition to_protobuf_ownership_spec (ownership_spec : platform.OwnershipSpecification.t)
    : Result OwnershipSpec.t :=
  match set_int32 (platform.OwnershipSpecification.uid ownership_spec) with
  | inl e => inl e
  | inr uid =>
      match set_int32 (platform.OwnershipSpecification.gid ownership_spec) with
      | inl e => inl e
      | inr gid => inr {| OwnershipSpec.uid := uid; OwnershipSpec.gid := gid |}
      end
  end.

(** [if spec.ownership_specification: ...CopyFrom(to_protobuf_ownership_spec(...))],
    the same in both wrappers: the ownership of the response, if any. *)
Definition marshal_ownership (ownership_specification : option platform.OwnershipSpecification.t)
    : Result (option OwnershipSpec.t) :=
  match ownership_specification with
  | Some ownership_spec =>
      match to_protobuf_ownership_spec ownership_spec with
      | inl e => inl e
      | inr ownership_spec_protobuf => inr (Some ownership_spec_protobuf)
      end
  | None => inr None
  end.

(** The local [to_protobuf] of the three post-snapshot wrappers. *)
Definition to_protobuf_snapshot (snapshot : SnapshotDefinition) : Snapshot.t :=
  {| Snapshot.parameters :=
       {| PluginDefinedObject.json := json_dumps (SnapshotDefinition_to_dict snapshot) |} |}.

End Unpacking.

(** ** [class DiscoveryOperations] *)

Module DiscoveryOperations.
Section WithImports.
Context {I : Imports}.
Import platform_pb2.

(** A slot holds [None] or a function object, which is true; [if
    self.x_impl], [if not self.x_impl] and [if self.x_impl is not None]
    all separate these two cases, written as a [match] below. *)
Record t : Type := {
  repository_impl : option (Implementation (list RepositoryDefinition));
  source_config_impl : option (Implementation (list SourceConfigDefinition))
}.

Definition __init__ : t :=
  {| repository_impl := None; source_config_impl := None |}.

Definition set_repository_impl v (self : t) : t :=
  {| repository_impl := v; source_config_impl := source_config_impl self |}.

Definition set_source_config_impl v (self : t) : t :=
  {| repository_impl := repository_impl self; source_config_impl := v |}.

Definition repository_decorator impl : M t (Implementation (list RepositoryDefinition)) :=
  bound <- getattr repository_impl ;;
  match bound with
  | Some _ => raise (already_defined "discovery.repository")
  | None =>
      setattr (set_repository_impl (Some impl)) ;;;
      ret impl
  end.

Definition source_config_decorator impl : M t (Implementation (list SourceConfigDefinition)) :=
  bound <- getattr source_config_impl ;;
  match bound with
  | Some _ => raise (already_defined "discovery.source_config")
  | None =>
      setattr (set_source_config_impl (Some impl)) ;;;
      ret impl
  end.

Definition to_protobuf_repository (repository : RepositoryDefinition)
    : common_pb2.Repository.t :=
  {| common_pb2.Repository.parameters :=
       {| common_pb2.PluginDefinedObject.json :=
            json_dumps (RepositoryDefinition_to_dict repository) |} |}.

Definition to_protobuf_source_config (source_config : SourceConfigDefinition)
    : common_pb2.SourceConfig.t :=
  {| common_pb2.SourceConfig.parameters :=
       {| common_pb2.PluginDefinedObject.json :=
            json_dumps (SourceConfigDefinition_to_dict source_config) |} |}.

Definition _internal_repository (request : Request.t) : M t Response :=
  slot <- getattr repository_impl ;;
  match slot with
  | None => raise (not_defined "discovery.repository")
  | Some impl =>
      repositories <- call "discovery.repository" impl
        [("source_connection", PyRemoteConnection (Request.source_connection request))] ;;
      ret (RepositoryDiscoveryResponse (map to_protobuf_repository repositories))
  end.

Definition _internal_source_config (request : Request.t) : M t Response :=
  repository_definition <- eval (from_dict_loads RepositoryDefinition_from_dict
    (repository_json request)) ;;
  slot <- getattr source_config_impl ;;
  match slot with
  | None => raise (not_defined "discovery.source_config")
  | Some impl =>
      source_configs <- call "discovery.source_config" impl
        [("source_connection", PyRemoteConnection (Request.source_connection request));
         ("repository", PyRepositoryDefinition repository_definition)] ;;
      ret (SourceConfigDiscoveryResponse (map to_protobuf_source_config source_configs))
  end.

End WithImports.
End DiscoveryOperations.

(** ** [class LinkedOperations] *)

Module LinkedOperations.
Section WithImports.
Context {I : Imports}.
Import common_pb2 platform_pb2.

Record t : Type := {
  pre_snapshot_impl : option (Implementation unit);
  post_snapshot_impl : option (Implementation SnapshotDefinition);
  start_staging_impl : option (Implementation unit);
  stop_staging_impl : option (Implementation unit);
  status_impl : option (Implementation platform.Status.t);
  worker_impl : option (Implementation unit);
  mount_specification_impl : option (Implementation platform.MountSpecification.t)
}.

Definition __init__ : t :=
  {| pre_snapshot_impl := None;
     post_snapshot_impl := None;
     start_staging_impl := None;
     stop_staging_impl := None;
     status_impl := None;
     worker_impl := None;
     mount_specification_impl := None |}.

Definition set_pre_snapshot_impl v (self : t) : t :=
  {| pre_snapshot_impl := v;
     post_snapshot_impl := post_snapshot_impl self;
     start_staging_impl := start_staging_impl self;
     stop_staging_impl := stop_staging_impl self;
     status_impl := status_impl self;
     worker_impl := worker_impl self;
     mount_specification_impl := mount_specification_impl self |}.

Definition set_post_snapshot_impl v (self : t) : t :=
  {| pre_snapshot_impl := pre_snapshot_impl self;
     post_snapshot_impl := v;
     start_staging_impl := start_staging_impl self;
     stop_staging_impl := stop_staging_impl self;
     status_impl := status_impl self;
     worker_impl := worker_impl self;
     mount_specification_impl := mount_specification_impl self |}.

Definition set_start_staging_impl v (self : t) : t :=
  {| pre_snapshot_impl := pre_snapshot_impl self;
     post_snapshot_impl := post_snapshot_impl self;
     start_staging_impl := v;
     stop_staging_impl := stop_staging_impl self;
     status_impl := status_impl self;
     worker_impl := worker_impl self;
     mount_specification_impl := mount_specification_impl self |}.

Definition set_stop_staging_impl v (self : t) : t :=
  {| pre_snapshot_impl := pre_snapshot_impl self;
     post_snapshot_impl := post_snapshot_impl self;
     start_staging_impl := start_staging_impl self;
     stop_staging_impl := v;
     status_impl := status_impl self;
     worker_impl := worker_impl self;
     mount_specification_impl := mount_specification_impl self |}.

Definition set_status_impl v (self : t) : t :=
  {| pre_snapshot_impl := pre_snapshot_impl self;
     post_snapshot_impl := post_snapshot_impl self;
     start_staging_impl := start_staging_impl self;
     stop_staging_impl := stop_staging_impl self;
     status_impl := v;
     worker_impl := worker_impl self;
     mount_specification_impl := mount_specification_impl self |}.

Definition set_worker_impl v (self : t) : t :=
  {| pre_snapshot_impl := pre_snapshot_impl self;
     post_snapshot_impl := post_snapshot_impl self;
     start_staging_impl := start_staging_impl self;
     stop_staging_impl := stop_staging_impl self;
     status_impl := status_impl self;
     worker_impl := v;
     mount_specification_impl := mount_specification_impl self |}.

Definition set_mount_specification_impl v (self : t) : t :=
  {| pre_snapshot_impl := pre_snapshot_impl self;
     post_snapshot_impl := post_snapshot_impl self;
     start_staging_impl := start_staging_impl self;
     stop_staging_impl := stop_staging_impl self;
     status_impl := status_impl self;
     worker_impl := worker_impl self;
     mount_specification_impl := v |}.

Definition pre_snapshot_decorator impl : M t (Implementation unit) :=
  bound <- getattr pre_snapshot_impl ;;
  match bound with
  | Some _ => raise (already_defined "linked.pre_snapshot")
  | None =>
      setattr (set_pre_snapshot_impl (Some impl)) ;;;
      ret impl
  end.

Definition post_snapshot_decorator impl : M t (Implementation SnapshotDefinition) :=
  bound <- getattr post_snapshot_impl ;;
  match bound with
  | Some _ => raise (already_defined "linked.post_snapshot")
  | None =>
      setattr (set_post_snapshot_impl (Some impl)) ;;;
      ret impl
  end.

Definition start_staging_decorator impl : M t (Implementation unit) :=
  bound <- getattr start_staging_impl ;;
  match bound with
  | Some _ => raise (already_defined "linked.start_staging")
  | None =>
      setattr (set_start_staging_impl (Some impl)) ;;;
      ret impl
  end.

Definition stop_staging_decorator impl : M t (Implementation unit) :=
  bound <- getattr stop_staging_impl ;;
  match bound with
  | Some _ => raise (already_defined "linked.stop_staging")
  | None =>
      setattr (set_stop_staging_impl (Some impl)) ;;;
      ret impl
  end.

Definition status_decorator impl : M t (Implementation platform.Status.t) :=
  bound <- getattr status_impl ;;
  match bound with
  | Some _ => raise (already_defined "linked.status")
  | None =>
      setattr (set_status_impl (Some impl)) ;;;
      ret impl
  end.

Definition worker_decorator impl : M t (Implementation unit) :=
  bound <- getattr worker_impl ;;
  match bound with
  | Some _ => raise (already_defined "linked.worker")
  | None =>
      setattr (set_worker_impl (Some impl)) ;;;
      ret impl
  end.

Definition mount_specification_decorator impl : M t (Implementation platform.MountSpecification.t) :=
  bound <- getattr mount_specification_impl ;;
  match bound with
  | Some _ => raise (already_defined "linked.mount_specification")
  | None =>
      setattr (set_mount_specification_impl (Some impl)) ;;;
      ret impl
  end.

Definition _internal_direct_pre_snapshot (request : Request.t) : M t Response :=
  direct_source_definition <- eval (from_dict_loads LinkedSourceDefinition_from_dict
    (direct_source_json request)) ;;
  let direct_source := new_DirectSource request direct_source_definition in
  repository <- eval (from_dict_loads RepositoryDefinition_from_dict
    (repository_json request)) ;;
  source_config <- eval (from_dict_loads SourceConfigDefinition_from_dict
    (source_config_json request)) ;;
  slot <- getattr pre_snapshot_impl ;;
  match slot with
  | None => raise (not_defined "linked.pre_snapshot")
  | Some impl =>
      _ <- call "linked.pre_snapshot" impl
        [("direct_source", PyDirectSource direct_source);
         ("repository", PyRepositoryDefinition repository);
         ("source_config", PySourceConfigDefinition source_config)] ;;
      ret DirectPreSnapshotResponse
  end.

Definition _internal_direct_post_snapshot (request : Request.t) : M t Response :=
  direct_source_definition <- eval (from_dict_loads LinkedSourceDefinition_from_dict
    (direct_source_json request)) ;;
  let direct_source := new_DirectSource request direct_source_definition in
  repository <- eval (from_dict_loads RepositoryDefinition_from_dict
    (repository_json request)) ;;
  source_config <- eval (from_dict_loads SourceConfigDefinition_from_dict
    (source_config_json request)) ;;
  slot <- getattr post_snapshot_impl ;;
  match slot with
  | None => raise (not_defined "linked.post_snapshot")
  | Some impl =>
      snapshot <- call "linked.post_snapshot" impl
        [("direct_source", PyDirectSource direct_source);
         ("repository", PyRepositoryDefinition repository);
         ("source_config", PySourceConfigDefinition source_config)] ;;
      ret (DirectPostSnapshotResponse (to_protobuf_snapshot snapshot))
  end.

Definition _internal_staged_pre_snapshot (request : Request.t) : M t Response :=
  slot <- getattr pre_snapshot_impl ;;
  match slot with
  | Some impl =>
      staged_source_definition <- eval (from_dict_loads LinkedSourceDefinition_from_dict
        (staged_source_json request)) ;;
      let mount := new_Mount request in
      let staged_source := new_StagedSource request staged_source_definition mount in
      repository <- eval (from_dict_loads RepositoryDefinition_from_dict
        (repository_json request)) ;;
      source_config <- eval (from_dict_loads SourceConfigDefinition_from_dict
        (source_config_json request)) ;;
      call "linked.pre_snapshot" impl
        [("staged_source", PyStagedSource staged_source);
         ("repository", PyRepositoryDefinition repository);
         ("source_config", PySourceConfigDefinition source_config)] ;;;
      ret tt
  | None => ret tt
  end ;;;
  ret StagedPreSnapshotResponse.

Definition _internal_staged_post_snapshot (request : Request.t) : M t Response :=
  staged_source_definition <- eval (from_dict_loads LinkedSourceDefinition_from_dict
    (staged_source_json request)) ;;
  let mount := new_Mount request in
  let staged_source := new_StagedSource request staged_source_definition mount in
  repository <- eval (from_dict_loads RepositoryDefinition_from_dict
    (repository_json request)) ;;
  source_config <- eval (from_dict_loads SourceConfigDefinition_from_dict
    (source_config_json request)) ;;
  slot <- getattr post_snapshot_impl ;;
  match slot with
  | None => raise (not_defined "linked.post_snapshot")
  | Some impl =>
      snapshot <- call "linked.post_snapshot" impl
        [("staged_source", PyStagedSource staged_source);
         ("repository", PyRepositoryDefinition repository);
         ("source_config", PySourceConfigDefinition source_config)] ;;
      ret (StagedPostSnapshotResponse (to_protobuf_snapshot snapshot))
  end.

Definition _internal_start_staging (request : Request.t) : M t Response :=
  slot <- getattr start_staging_impl ;;
  match slot with
  | Some impl =>
      staged_source_definition <- eval (from_dict_loads LinkedSourceDefinition_from_dict
        (staged_source_json request)) ;;
      let mount := new_Mount request in
      let staged_source := new_StagedSource request staged_source_definition mount in
      repository <- eval (from_dict_loads RepositoryDefinition_from_dict
        (repository_json request)) ;;
      source_config <- eval (from_dict_loads SourceConfigDefinition_from_dict
        (source_config_json request)) ;;
      call "linked.start_staging" impl
        [("staged_source", PyStagedSource staged_source);
         ("repository", PyRepositoryDefinition repository);
         ("source_config", PySourceConfigDefinition source_config)] ;;;
      ret tt
  | None => ret tt
  end ;;;
  ret StartStagingResponse.

Definition _internal_stop_staging (request : Request.t) : M t Response :=
  slot <- getattr stop_staging_impl ;;
  match slot with
  | Some impl =>
      staged_source_definition <- eval (from_dict_loads LinkedSourceDefinition_from_dict
        (staged_source_json request)) ;;
      let mount := new_Mount request in
      let staged_source := new_StagedSource request staged_source_definition mount in
      repository <- eval (from_dict_loads RepositoryDefinition_from_dict
        (repository_json request)) ;;
      source_config <- eval (from_dict_loads SourceConfigDefinition_from_dict
        (source_config_json request)) ;;
      call "linked.stop_staging" impl
        [("staged_source", PyStagedSource staged_source);
         ("repository", PyRepositoryDefinition repository);
         ("source_config", PySourceConfigDefinition source_config)] ;;;
      ret tt
  | None => ret tt
  end ;;;
  ret StopStagingResponse.

(** Without an implementation the linked source is always active; the
    constant is read as [platform_pb2.StagedStatusResult.ACTIVE]. *)
Definition _internal_status (request : Request.t) : M t Response :=
  slot <- getattr status_impl ;;
  match slot with
  | None =>
      status <- eval StagedStatusResult_ACTIVE ;;
      ret (StagedStatusResponse status)
  | Some impl =>
      staged_source_definition <- eval (from_dict_loads LinkedSourceDefinition_from_dict
        (staged_source_json request)) ;;
      let mount := new_Mount request in
      let staged_source := new_StagedSource request staged_source_definition mount in
      repository <- eval (from_dict_loads RepositoryDefinition_from_dict
        (repository_json request)) ;;
      source_config <- eval (from_dict_loads SourceConfigDefinition_from_dict
        (source_config_json request)) ;;
      status <- call "linked.status" impl
        [("staged_source", PyStagedSource staged_source);
         ("repository", PyRepositoryDefinition repository);
         ("source_config", PySourceConfigDefinition source_config)] ;;
      ret (StagedStatusResponse (platform.Status.value status))
  end.

Definition _internal_worker (request : Request.t) : M t Response :=
  slot <- getattr worker_impl ;;
  match slot with
  | Some impl =>
      staged_source_definition <- eval (from_dict_loads LinkedSourceDefinition_from_dict
        (staged_source_json request)) ;;
      let mount := new_Mount request in
      let staged_source := new_StagedSource request staged_source_definition mount in
      repository <- eval (from_dict_loads RepositoryDefinition_from_dict
        (repository_json request)) ;;
      source_config <- eval (from_dict_loads SourceConfigDefinition_from_dict
        (source_config_json request)) ;;
      call "linked.worker" impl
        [("staged_source", PyStagedSource staged_source);
         ("repository", PyRepositoryDefinition repository);
         ("source_config", PySourceConfigDefinition source_config)] ;;;
      ret tt
  | None => ret tt
  end ;;;
  ret StagedWorkerResponse.

(** The local [to_protobuf_single_mount] of the staged wrapper: shared
    path is not supported for linked sources, and is not copied. *)
Definition to_protobuf_single_mount (single_mount : platform.Mount.t)
    : M t SingleEntireMount.t :=
  assert (negb (truthy_path (platform.Mount.shared_path single_mount))) ;;;
  ret {| SingleEntireMount.mount_path := platform.Mount.mount_path single_mount;
         SingleEntireMount.remote_environment :=
           platform.Mount.remote_environment single_mount;
         SingleEntireMount.shared_path := EmptyString |}.

Definition exactly_one_mount (mountLen : nat) : Exception :=
  RuntimeError ("Exactly one mount must be provided for staging sources. Found "
                ++ NilEmpty.string_of_uint (Nat.to_uint mountLen)).

Definition _internal_mount_specification (request : Request.t) : M t Response :=
  staged_source_definition <- eval (from_dict_loads LinkedSourceDefinition_from_dict
    (staged_source_json request)) ;;
  let mount := new_Mount request in
  let staged_source := new_StagedSource request staged_source_definition mount in
  repository <- eval (from_dict_loads RepositoryDefinition_from_dict
    (repository_json request)) ;;
  slot <- getattr mount_specification_impl ;;
  match slot with
  | None => raise (not_defined "linked.mount_specification")
  | Some impl =>
      mount_spec <- call "linked.mount_specification" impl
        [("staged_source", PyStagedSource staged_source);
         ("repository", PyRepositoryDefinition repository)] ;;
      let mountLen := length (platform.MountSpecification.mounts mount_spec) in
      if negb (Nat.eqb mountLen 1) then raise (exactly_one_mount mountLen) else
      single_mount <- eval (subscript (platform.MountSpecification.mounts mount_spec) 0) ;;
      staged_mount <- to_protobuf_single_mount single_mount ;;
      ownership_spec <- eval (marshal_ownership
        (platform.MountSpecification.ownership_specification mount_spec)) ;;
      ret (StagedMountSpecResponse staged_mount ownership_spec)
  end.

End WithImports.
End LinkedOperations.


(** ** [class VirtualOperations] *)

Module VirtualOperations.
Section WithImports.
Context {I : Imports}.
Import common_pb2 platform_pb2.

Record t : Type := {
  configure_impl : option (Implementation SourceConfigDefinition);
  unconfigure_impl : option (Implementation unit);
  reconfigure_impl : option (Implementation SourceConfigDefinition);
  start_impl : option (Implementation unit);
  stop_impl : option (Implementation unit);
  pre_snapshot_impl : option (Implementation unit);
  post_snapshot_impl : option (Implementation SnapshotDefinition);
  status_impl : option (Implementation platform.Status.t);
  initialize_impl : option (Implementation unit);
  mount_specification_impl : option (Implementation platform.MountSpecification.t)
}.

Definition __init__ : t :=
  {| configure_impl := None;
     unconfigure_impl := None;
     reconfigure_impl := None;
     start_impl := None;
     stop_impl := None;
     pre_snapshot_impl := None;
     post_snapshot_impl := None;
     status_impl := None;
     initialize_impl := None;
     mount_specification_impl := None |}.

Definition set_configure_impl v (self : t) : t :=
  {| configure_impl := v;
     unconfigure_impl := unconfigure_impl self;
     reconfigure_impl := reconfigure_impl self;
     start_impl := start_impl self;
     stop_impl := stop_impl self;
     pre_snapshot_impl := pre_snapshot_impl self;
     post_snapshot_impl := post_snapshot_impl self;
     status_impl := status_impl self;
     initialize_impl := initialize_impl self;
     mount_specification_impl := mount_specification_impl self |}.

Definition set_unconfigure_impl v (self : t) : t :=
  {| configure_impl := configure_impl self;
     unconfigure_impl := v;
     reconfigure_impl := reconfigure_impl self;
     start_impl := start_impl self;
     stop_impl := stop_impl self;
     pre_snapshot_impl := pre_snapshot_impl self;
     post_snapshot_impl := post_snapshot_impl self;
     status_impl := status_impl self;
     initialize_impl := initialize_impl self;
     mount_specification_impl := mount_specification_impl self |}.

Definition set_reconfigure_impl v (self : t) : t :=
  {| configure_impl := configure_impl self;
     unconfigure_impl := unconfigure_impl self;
     reconfigure_impl := v;
     start_impl := start_impl self;
     stop_impl := stop_impl self;
     pre_snapshot_impl := pre_snapshot_impl self;
     post_snapshot_impl := post_snapshot_impl self;
     status_impl := status_impl self;
     initialize_impl := initialize_impl self;
     mount_specification_impl := mount_specification_impl self |}.

Definition set_start_impl v (self : t) : t :=
  {| configure_impl := configure_impl self;
     unconfigure_impl := unconfigure_impl self;
     reconfigure_impl := reconfigure_impl self;
     start_impl := v;
     stop_impl := stop_impl self;
     pre_snapshot_impl := pre_snapshot_impl self;
     post_snapshot_impl := post_snapshot_impl self;
     status_impl := status_impl self;
     initialize_impl := initialize_impl self;
     mount_specification_impl := mount_specification_impl self |}.

Definition set_stop_impl v (self : t) : t :=
  {| configure_impl := configure_impl self;
     unconfigure_impl := unconfigure_impl self;
     reconfigure_impl := reconfigure_impl self;
     start_impl := start_impl self;
     stop_impl := v;
     pre_snapshot_impl := pre_snapshot_impl self;
     post_snapshot_impl := post_snapshot_impl self;
     status_impl := status_impl self;
     initialize_impl := initialize_impl self;
     mount_specification_impl := mount_specification_impl self |}.

Definition set_pre_snapshot_impl v (self : t) : t :=
  {| configure_impl := configure_impl self;
     unconfigure_impl := unconfigure_impl self;
     reconfigure_impl := reconfigure_impl self;
     start_impl := start_impl self;
     stop_impl := stop_impl self;
     pre_snapshot_impl := v;
     post_snapshot_impl := post_snapshot_impl self;
     status_impl := status_impl self;
     initialize_impl := initialize_impl self;
     mount_specification_impl := mount_specification_impl self |}.

Definition set_post_snapshot_impl v (self : t) : t :=
  {| configure_impl := configure_impl self;
     unconfigure_impl := unconfigure_impl self;
     reconfigure_impl := reconfigure_impl self;
     start_impl := start_impl self;
     stop_impl := stop_impl self;
     pre_snapshot_impl := pre_snapshot_impl self;
     post_snapshot_impl := v;
     status_impl := status_impl self;
     initialize_impl := initialize_impl self;
     mount_specification_impl := mount_specification_impl self |}.

Definition set_status_impl v (self : t) : t :=
  {| configure_impl := configure_impl self;
     unconfigure_impl := unconfigure_impl self;
     reconfigure_impl := reconfigure_impl self;
     start_impl := start_impl self;
     stop_impl := stop_impl self;
     pre_snapshot_impl := pre_snapshot_impl self;
     post_snapshot_impl := post_snapshot_impl self;
     status_impl := v;
     initialize_impl := initialize_impl self;
     mount_specification_impl := mount_specification_impl self |}.

Definition set_initialize_impl v (self : t) : t :=
  {| configure_impl := configure_impl self;
     unconfigure_impl := unconfigure_impl self;
     reconfigure_impl := reconfigure_impl self;
     start_impl := start_impl self;
     stop_impl := stop_impl self;
     pre_snapshot_impl := pre_snapshot_impl self;
     post_snapshot_impl := post_snapshot_impl self;
     status_impl := status_impl self;
     initialize_impl := v;
     mount_specification_impl := mount_specification_impl self |}.

Definition set_mount_specification_impl v (self : t) : t :=
  {| configure_impl := configure_impl self;
     unconfigure_impl := unconfigure_impl self;
     reconfigure_impl := reconfigure_impl self;
     start_impl := start_impl self;
     stop_impl := stop_impl self;
     pre_snapshot_impl := pre_snapshot_impl self;
     post_snapshot_impl := post_snapshot_impl self;
     status_impl := status_impl self;
     initialize_impl := initialize_impl self;
     mount_specification_impl := v |}.

Definition configure_decorator impl : M t (Implementation SourceConfigDefinition) :=
  bound <- getattr configure_impl ;;
  match bound with
  | Some _ => raise (already_defined "virtual.configure")
  | None =>
      setattr (set_configure_impl (Some impl)) ;;;
      ret impl
  end.

Definition unconfigure_decorator impl : M t (Implementation unit) :=
  bound <- getattr unconfigure_impl ;;
  match bound with
  | Some _ => raise (already_defined "virtual.unconfigure")
  | None =>
      setattr (set_unconfigure_impl (Some impl)) ;;;
      ret impl
  end.

Definition reconfigure_decorator impl : M t (Implementation SourceConfigDefinition) :=
  bound <- getattr reconfigure_impl ;;
  match bound with
  | Some _ => raise (already_defined "virtual.reconfigure")
  | None =>
      setattr (set_reconfigure_impl (Some impl)) ;;;
      ret impl
  end.

Definition start_decorator impl : M t (Implementation unit) :=
  bound <- getattr start_impl ;;
  match bound with
  | Some _ => raise (already_defined "virtual.start")
  | None =>
      setattr (set_start_impl (Some impl)) ;;;
      ret impl
  end.

Definition stop_decorator impl : M t (Implementation unit) :=
  bound <- getattr stop_impl ;;
  match bound with
  | Some _ => raise (already_defined "virtual.stop")
  | None =>
      setattr (set_stop_impl (Some impl)) ;;;
      ret impl
  end.

Definition pre_snapshot_decorator impl : M t (Implementation unit) :=
  bound <- getattr pre_snapshot_impl ;;
  match bound with
  | Some _ => raise (already_defined "virtual.pre_snapshot")
  | None =>
      setattr (set_pre_snapshot_impl (Some impl)) ;;;
      ret impl
  end.

Definition post_snapshot_decorator impl : M t (Implementation SnapshotDefinition) :=
  bound <- getattr post_snapshot_impl ;;
  match bound with
  | Some _ => raise (already_defined "virtual.post_snapshot")
  | None =>
      setattr (set_post_snapshot_impl (Some impl)) ;;;
      ret impl
  end.

Definition status_decorator impl : M t (Implementation platform.Status.t) :=
  bound <- getattr status_impl ;;
  match bound with
  | Some _ => raise (already_defined "virtual.status")
  | None =>
      setattr (set_status_impl (Some impl)) ;;;
      ret impl
  end.

Definition initialize_decorator impl : M t (Implementation unit) :=
  bound <- getattr initialize_impl ;;
  match bound with
  | Some _ => raise (already_defined "virtual.initialize")
  | None =>
      setattr (set_initialize_impl (Some impl)) ;;;
      ret impl
  end.

Definition mount_specification_decorator impl : M t (Implementation platform.MountSpecification.t) :=
  bound <- getattr mount_specification_impl ;;
  match bound with
  | Some _ => raise (already_defined "virtual.mount_specification")
  | None =>
      setattr (set_mount_specification_impl (Some impl)) ;;;
      ret impl
  end.

(** The message of [_internal_configure], with its two words swapped. *)
Definition configure_not_defined : Exception :=
  RuntimeError ("An implementation the for virtual.configure() operation has "
                ++ "not been defined.").

(** [response.return_value.source_config.parameters.json =
    json.dumps(config.to_dict())] *)
Definition source_config_of (config : SourceConfigDefinition) : SourceConfig.t :=
  {| SourceConfig.parameters :=
       {| PluginDefinedObject.json := json_dumps (SourceConfigDefinition_to_dict config) |} |}.

Definition _internal_configure (request : Request.t) : M t Response :=
  virtual_source_definition <- eval (from_dict_loads VirtualSourceDefinition_from_dict
    (virtual_source_json request)) ;;
  let virtual_source := new_VirtualSource request virtual_source_definition in
  repository <- eval (from_dict_loads RepositoryDefinition_from_dict
    (repository_json request)) ;;
  snapshot <- eval (from_dict_loads SnapshotDefinition_from_dict
    (snapshot_json request)) ;;
  slot <- getattr configure_impl ;;
  match slot with
  | None => raise (configure_not_defined)
  | Some impl =>
      config <- call "virtual.configure" impl
        [("virtual_source", PyVirtualSource virtual_source);
         ("repository", PyRepositoryDefinition repository);
         ("snapshot", PySnapshotDefinition snapshot)] ;;
      ret (ConfigureResponse (source_config_of config))
  end.

Definition _internal_unconfigure (request : Request.t) : M t Response :=
  slot <- getattr unconfigure_impl ;;
  match slot with
  | Some impl =>
      virtual_source_definition <- eval (from_dict_loads VirtualSourceDefinition_from_dict
        (virtual_source_json request)) ;;
      let virtual_source := new_VirtualSource request virtual_source_definition in
      repository <- eval (from_dict_loads RepositoryDefinition_from_dict
        (repository_json request)) ;;
      source_config <- eval (from_dict_loads SourceConfigDefinition_from_dict
        (source_config_json request)) ;;
      call "virtual.unconfigure" impl
        [("repository", PyRepositoryDefinition repository);
         ("source_config", PySourceConfigDefinition source_config);
         ("virtual_source", PyVirtualSource virtual_source)] ;;;
      ret tt
  | None => ret tt
  end ;;;
  ret UnconfigureResponse.

Definition _internal_reconfigure (request : Request.t) : M t Response :=
  virtual_source_definition <- eval (from_dict_loads VirtualSourceDefinition_from_dict
    (virtual_source_json request)) ;;
  let virtual_source := new_VirtualSource request virtual_source_definition in
  snapshot <- eval (from_dict_loads SnapshotDefinition_from_dict
    (snapshot_json request)) ;;
  source_config <- eval (from_dict_loads SourceConfigDefinition_from_dict
    (source_config_json request)) ;;
  slot <- getattr reconfigure_impl ;;
  match slot with
  | None => raise (not_defined "virtual.reconfigure")
  | Some impl =>
      config <- call "virtual.reconfigure" impl
        [("snapshot", PySnapshotDefinition snapshot);
         ("source_config", PySourceConfigDefinition source_config);
         ("virtual_source", PyVirtualSource virtual_source)] ;;
      ret (ReconfigureResponse (source_config_of config))
  end.

Definition _internal_start (request : Request.t) : M t Response :=
  slot <- getattr start_impl ;;
  match slot with
  | Some impl =>
      virtual_source_definition <- eval (from_dict_loads VirtualSourceDefinition_from_dict
        (virtual_source_json request)) ;;
      let virtual_source := new_VirtualSource request virtual_source_definition in
      repository <- eval (from_dict_loads RepositoryDefinition_from_dict
        (repository_json request)) ;;
      source_config <- eval (from_dict_loads SourceConfigDefinition_from_dict
        (source_config_json request)) ;;
      call "virtual.start" impl
        [("repository", PyRepositoryDefinition repository);
         ("source_config", PySourceConfigDefinition source_config);
         ("virtual_source", PyVirtualSource virtual_source)] ;;;
      ret tt
  | None => ret tt
  end ;;;
  ret StartResponse.

Definition _internal_stop (request : Request.t) : M t Response :=
  slot <- getattr stop_impl ;;
  match slot with
  | Some impl =>
      virtual_source_definition <- eval (from_dict_loads VirtualSourceDefinition_from_dict
        (virtual_source_json request)) ;;
      let virtual_source := new_VirtualSource request virtual_source_definition in
      repository <- eval (from_dict_loads RepositoryDefinition_from_dict
        (repository_json request)) ;;
      source_config <- eval (from_dict_loads SourceConfigDefinition_from_dict
        (source_config_json request)) ;;
      call "virtual.stop" impl
        [("repository", PyRepositoryDefinition repository);
         ("source_config", PySourceConfigDefinition source_config);
         ("virtual_source", PyVirtualSource virtual_source)] ;;;
      ret tt
  | None => ret tt
  end ;;;
  ret StopResponse.

Definition _internal_pre_snapshot (request : Request.t) : M t Response :=
  slot <- getattr pre_snapshot_impl ;;
  match slot with
  | Some impl =>
      virtual_source_definition <- eval (from_dict_loads VirtualSourceDefinition_from_dict
        (virtual_source_json request)) ;;
      let virtual_source := new_VirtualSource request virtual_source_definition in
      repository <- eval (from_dict_loads RepositoryDefinition_from_dict
        (repository_json request)) ;;
      source_config <- eval (from_dict_loads SourceConfigDefinition_from_dict
        (source_config_json request)) ;;
      call "virtual.pre_snapshot" impl
        [("repository", PyRepositoryDefinition repository);
         ("source_config", PySourceConfigDefinition source_config);
         ("virtual_source", PyVirtualSource virtual_source)] ;;;
      ret tt
  | None => ret tt
  end ;;;
  ret VirtualPreSnapshotResponse.

Definition _internal_post_snapshot (request : Request.t) : M t Response :=
  virtual_source_definition <- eval (from_dict_loads VirtualSourceDefinition_from_dict
    (virtual_source_json request)) ;;
  let virtual_source := new_VirtualSource request virtual_source_definition in
  repository <- eval (from_dict_loads RepositoryDefinition_from_dict
    (repository_json request)) ;;
  source_config <- eval (from_dict_loads SourceConfigDefinition_from_dict
    (source_config_json request)) ;;
  slot <- getattr post_snapshot_impl ;;
  match slot with
  | None => raise (not_defined "virtual.post_snapshot")
  | Some impl =>
      snapshot <- call "virtual.post_snapshot" impl
        [("repository", PyRepositoryDefinition repository);
         ("source_config", PySourceConfigDefinition source_config);
         ("virtual_source", PyVirtualSource virtual_source)] ;;
      ret (VirtualPostSnapshotResponse (to_protobuf_snapshot snapshot))
  end.

(** Without an implementation the wrapper makes the response and reads
    the constant as [platform_pb2.VirtualStatusResponse.ACTIVE], off the
    response class, where the staged wrapper reads it off the result
    class: the attribute lookup raises. *)
Definition _internal_status (request : Request.t) : M t Response :=
  slot <- getattr status_impl ;;
  match slot with
  | None =>
      status <- eval VirtualStatusResponse_ACTIVE ;;
      ret (VirtualStatusResponse status)
  | Some impl =>
      virtual_source_definition <- eval (from_dict_loads VirtualSourceDefinition_from_dict
        (virtual_source_json request)) ;;
      let virtual_source := new_VirtualSource request virtual_source_definition in
      repository <- eval (from_dict_loads RepositoryDefinition_from_dict
        (repository_json request)) ;;
      source_config <- eval (from_dict_loads SourceConfigDefinition_from_dict
        (source_config_json request)) ;;
      status <- call "virtual.status" impl
        [("repository", PyRepositoryDefinition repository);
         ("source_config", PySourceConfigDefinition source_config);
         ("virtual_source", PyVirtualSource virtual_source)] ;;
      ret (VirtualStatusResponse (platform.Status.value status))
  end.

Definition _internal_initialize (request : Request.t) : M t Response :=
  virtual_source_definition <- eval (from_dict_loads VirtualSourceDefinition_from_dict
    (virtual_source_json request)) ;;
  let virtual_source := new_VirtualSource request virtual_source_definition in
  repository <- eval (from_dict_loads RepositoryDefinition_from_dict
    (repository_json request)) ;;
  source_config <- eval (from_dict_loads SourceConfigDefinition_from_dict
    (source_config_json request)) ;;
  slot <- getattr initialize_impl ;;
  match slot with
  | None => raise (not_defined "virtual.initialize")
  | Some impl =>
      _ <- call "virtual.initialize" impl
        [("repository", PyRepositoryDefinition repository);
         ("source_config", PySourceConfigDefinition source_config);
         ("virtual_source", PyVirtualSource virtual_source)] ;;
      ret InitializeResponse
  end.

(** The local [to_protobuf_single_mount] of the virtual wrapper: host and
    environment are rebuilt attribute by attribute, the shared path is set
    only when it is true. *)
Definition to_protobuf_single_mount (single_mount : platform.Mount.t)
    : SingleSubsetMount.t :=
  let host := RemoteEnvironment.host (platform.Mount.remote_environment single_mount) in
  let host_protobuf :=
    {| RemoteHost.name := RemoteHost.name host;
       RemoteHost.reference := RemoteHost.reference host;
       RemoteHost.binary_path := RemoteHost.binary_path host;
       RemoteHost.scratch_path := RemoteHost.scratch_path host |} in
  let environment_protobuf :=
    {| RemoteEnvironment.name :=
         RemoteEnvironment.name (platform.Mount.remote_environment single_mount);
       RemoteEnvironment.reference :=
         RemoteEnvironment.reference (platform.Mount.remote_environment single_mount);
       RemoteEnvironment.host := host_protobuf |} in
  {| SingleSubsetMount.remote_environment := environment_protobuf;
     SingleSubsetMount.mount_path := platform.Mount.mount_path single_mount;
     SingleSubsetMount.shared_path :=
       if truthy_path (platform.Mount.shared_path single_mount)
       then match platform.Mount.shared_path single_mount with
            | Some shared_path => shared_path
            | None => EmptyString
            end
       else EmptyString |}.

Definition _internal_mount_specification (request : Request.t) : M t Response :=
  virtual_source_definition <- eval (from_dict_loads VirtualSourceDefinition_from_dict
    (virtual_source_json request)) ;;
  let virtual_source := new_VirtualSource request virtual_source_definition in
  repository <- eval (from_dict_loads RepositoryDefinition_from_dict
    (repository_json request)) ;;
  slot <- getattr mount_specification_impl ;;
  match slot with
  | None => raise (not_defined "virtual.mount_specification")
  | Some impl =>
      virtual_mount_spec <- call "virtual.mount_specification" impl
        [("repository", PyRepositoryDefinition repository);
         ("virtual_source", PyVirtualSource virtual_source)] ;;
      ownership_spec <- eval (marshal_ownership
        (platform.MountSpecification.ownership_specification virtual_mount_spec)) ;;
      let mounts_list :=
        map to_protobuf_single_mount (platform.MountSpecification.mounts virtual_mount_spec) in
      ret (VirtualMountSpecResponse ownership_spec mounts_list)
  end.

End WithImports.
End VirtualOperations.

(** ** [class Plugin] *)

Module Plugin.
Section WithImports.
Context {I : Imports}.
Import platform_pb2.

Record t : Type := {
  discovery : DiscoveryOperations.t;
  linked : LinkedOperations.t;
  virtual : VirtualOperations.t
}.

Definition __init__ : t :=
  {| discovery := DiscoveryOperations.__init__;
     linked := LinkedOperations.__init__;
     virtual := VirtualOperations.__init__ |}.

(** [plugin.discovery.method(...)]: the method runs on the registry the
    property returns, and what it assigns is assigned in the plugin. *)
Definition on_discovery {A : Type} (m : M DiscoveryOperations.t A) : M t A :=
  fun self trace =>
    let '(registry, trace', r) := m (discovery self) trace in
    ({| discovery := registry; linked := linked self; virtual := virtual self |},
     trace', r).

Definition on_linked {A : Type} (m : M LinkedOperations.t A) : M t A :=
  fun self trace =>
    let '(registry, trace', r) := m (linked self) trace in
    ({| discovery := discovery self; linked := registry; virtual := virtual self |},
     trace', r).

Definition on_virtual {A : Type} (m : M VirtualOperations.t A) : M t A :=
  fun self trace =>
    let '(registry, trace', r) := m (virtual self) trace in
    ({| discovery := discovery self; linked := linked self; virtual := registry |},
     trace', r).

(** *** Slots *)

(** The nineteen slots of a plugin, by registry. *)
Inductive Slot : Type :=
| discovery_repository | discovery_source_config
| linked_pre_snapshot | linked_post_snapshot | linked_start_staging
| linked_stop_staging | linked_status | linked_worker | linked_mount_specification
| virtual_configure | virtual_unconfigure | virtual_reconfigure | virtual_start
| virtual_stop | virtual_pre_snapshot | virtual_post_snapshot | virtual_status
| virtual_initialize | virtual_mount_specification.

(** What the implementation in a slot returns. *)
Definition returns (s : Slot) : Type :=
  match s with
  | discovery_repository => list RepositoryDefinition
  | discovery_source_config => list SourceConfigDefinition
  | linked_post_snapshot | virtual_post_snapshot => SnapshotDefinition
  | linked_status | virtual_status => platform.Status.t
  | linked_mount_specification | virtual_mount_specification =>
      platform.MountSpecification.t
  | virtual_configure | virtual_reconfigure => SourceConfigDefinition
  | _ => unit
  end.

(** The name an operation has in the messages and in the trace. *)
Definition slot_name (s : Slot) : string :=
  match s with
  | discovery_repository => "discovery.repository"
  | discovery_source_config => "discovery.source_config"
  | linked_pre_snapshot => "linked.pre_snapshot"
  | linked_post_snapshot => "linked.post_snapshot"
  | linked_start_staging => "linked.start_staging"
  | linked_stop_staging => "linked.stop_staging"
  | linked_status => "linked.status"
  | linked_worker => "linked.worker"
  | linked_mount_specification => "linked.mount_specification"
  | virtual_configure => "virtual.configure"
  | virtual_unconfigure => "virtual.unconfigure"
  | virtual_reconfigure => "virtual.reconfigure"
  | virtual_start => "virtual.start"
  | virtual_stop => "virtual.stop"
  | virtual_pre_snapshot => "virtual.pre_snapshot"
  | virtual_post_snapshot => "virtual.post_snapshot"
  | virtual_status => "virtual.status"
  | virtual_initialize => "virtual.initialize"
  | virtual_mount_specification => "virtual.mount_specification"
  end.

(** [plugin.registry.x_impl] *)
Definition bound (s : Slot) (self : t) : option (Implementation (returns s)) :=
  match s with
  | discovery_repository => DiscoveryOperations.repository_impl (discovery self)
  | discovery_source_config => DiscoveryOperations.source_config_impl (discovery self)
  | linked_pre_snapshot => LinkedOperations.pre_snapshot_impl (linked self)
  | linked_post_snapshot => LinkedOperations.post_snapshot_impl (linked self)
  | linked_start_staging => LinkedOperations.start_staging_impl (linked self)
  | linked_stop_staging => LinkedOperations.stop_staging_impl (linked self)
  | linked_status => LinkedOperations.status_impl (linked self)
  | linked_worker => LinkedOperations.worker_impl (linked self)
  | linked_mount_specification => LinkedOperations.mount_specification_impl (linked self)
  | virtual_configure => VirtualOperations.configure_impl (virtual self)
  | virtual_unconfigure => VirtualOperations.unconfigure_impl (virtual self)
  | virtual_reconfigure => VirtualOperations.reconfigure_impl (virtual self)
  | virtual_start => VirtualOperations.start_impl (virtual self)
  | virtual_stop => VirtualOperations.stop_impl (virtual self)
  | virtual_pre_snapshot => VirtualOperations.pre_snapshot_impl (virtual self)
  | virtual_post_snapshot => VirtualOperations.post_snapshot_impl (virtual self)
  | virtual_status => VirtualOperations.status_impl (virtual self)
  | virtual_initialize => VirtualOperations.initialize_impl (virtual self)
  | virtual_mount_specification =>
      VirtualOperations.mount_specification_impl (virtual self)
  end.

(** [plugin.registry.x()(impl)], what the decorator line above an
    implementation runs. *)
Definition register (s : Slot)
    : Implementation (returns s) -> M t (Implementation (returns s)) :=
  match s with
  | discovery_repository =>
      fun impl => on_discovery (DiscoveryOperations.repository_decorator impl)
  | discovery_source_config =>
      fun impl => on_discovery (DiscoveryOperations.source_config_decorator impl)
  | linked_pre_snapshot =>
      fun impl => on_linked (LinkedOperations.pre_snapshot_decorator impl)
  | linked_post_snapshot =>
      fun impl => on_linked (LinkedOperations.post_snapshot_decorator impl)
  | linked_start_staging =>
      fun impl => on_linked (LinkedOperations.start_staging_decorator impl)
  | linked_stop_staging =>
      fun impl => on_linked (LinkedOperations.stop_staging_decorator impl)
  | linked_status =>
      fun impl => on_linked (LinkedOperations.status_decorator impl)
  | linked_worker =>
      fun impl => on_linked (LinkedOperations.worker_decorator impl)
  | linked_mount_specification =>
      fun impl => on_linked (LinkedOperations.mount_specification_decorator impl)
  | virtual_configure =>
      fun impl => on_virtual (VirtualOperations.configure_decorator impl)
  | virtual_unconfigure =>
      fun impl => on_virtual (VirtualOperations.unconfigure_decorator impl)
  | virtual_reconfigure =>
      fun impl => on_virtual (VirtualOperations.reconfigure_decorator impl)
  | virtual_start =>
      fun impl => on_virtual (VirtualOperations.start_decorator impl)
  | virtual_stop =>
      fun impl => on_virtual (VirtualOperations.stop_decorator impl)
  | virtual_pre_snapshot =>
      fun impl => on_virtual (VirtualOperations.pre_snapshot_decorator impl)
  | virtual_post_snapshot =>
      fun impl => on_virtual (VirtualOperations.post_snapshot_decorator impl)
  | virtual_status =>
      fun impl => on_virtual (VirtualOperations.status_decorator impl)
  | virtual_initialize =>
      fun impl => on_virtual (VirtualOperations.initialize_decorator impl)
  | virtual_mount_specification =>
      fun impl => on_virtual (VirtualOperations.mount_specification_decorator impl)
  end.

(** *** Wrappers *)

(** The twenty-one wrappers the runtime calls.  The linked registry has
    two wrappers on its [pre_snapshot] slot and two on [post_snapshot], one
    for direct and one for staged sources. *)
Inductive Operation : Type :=
| repository_discovery | source_config_discovery
| direct_pre_snapshot | direct_post_snapshot
| staged_pre_snapshot | staged_post_snapshot
| start_staging | stop_staging | staged_status | staged_worker | staged_mount_spec
| configure | unconfigure | reconfigure | start | stop
| virtual_pre_snapshot_op | virtual_post_snapshot_op | virtual_status_op
| initialize | virtual_mount_spec.

(** The slot a wrapper looks at. *)
Definition slot_of (op : Operation) : Slot :=
  match op with
  | repository_discovery => discovery_repository
  | source_config_discovery => discovery_source_config
  | direct_pre_snapshot | staged_pre_snapshot => linked_pre_snapshot
  | direct_post_snapshot | staged_post_snapshot => linked_post_snapshot
  | start_staging => linked_start_staging
  | stop_staging => linked_stop_staging
  | staged_status => linked_status
  | staged_worker => linked_worker
  | staged_mount_spec => linked_mount_specification
  | configure => virtual_configure
  | unconfigure => virtual_unconfigure
  | reconfigure => virtual_reconfigure
  | start => virtual_start
  | stop => virtual_stop
  | virtual_pre_snapshot_op => virtual_pre_snapshot
  | virtual_post_snapshot_op => virtual_post_snapshot
  | virtual_status_op => virtual_status
  | initialize => virtual_initialize
  | virtual_mount_spec => virtual_mount_specification
  end.

(** [plugin.registry._internal_x(request)] *)
Definition dispatch (op : Operation) (request : Request.t) : M t Response :=
  match op with
  | repository_discovery =>
      on_discovery (DiscoveryOperations._internal_repository request)
  | source_config_discovery =>
      on_discovery (DiscoveryOperations._internal_source_config request)
  | direct_pre_snapshot =>
      on_linked (LinkedOperations._internal_direct_pre_snapshot request)
  | direct_post_snapshot =>
      on_linked (LinkedOperations._internal_direct_post_snapshot request)
  | staged_pre_snapshot =>
      on_linked (LinkedOperations._internal_staged_pre_snapshot request)
  | staged_post_snapshot =>
      on_linked (LinkedOperations._internal_staged_post_snapshot request)
  | start_staging => on_linked (LinkedOperations._internal_start_staging request)
  | stop_staging => on_linked (LinkedOperations._internal_stop_staging request)
  | staged_status => on_linked (LinkedOperations._internal_status request)
  | staged_worker => on_linked (LinkedOperations._internal_worker request)
  | staged_mount_spec =>
      on_linked (LinkedOperations._internal_mount_specification request)
  | configure => on_virtual (VirtualOperations._internal_configure request)
  | unconfigure => on_virtual (VirtualOperations._internal_unconfigure request)
  | reconfigure => on_virtual (VirtualOperations._internal_reconfigure request)
  | start => on_virtual (VirtualOperations._internal_start request)
  | stop => on_virtual (VirtualOperations._internal_stop request)
  | virtual_pre_snapshot_op =>
      on_virtual (VirtualOperations._internal_pre_snapshot request)
  | virtual_post_snapshot_op =>
      on_virtual (VirtualOperations._internal_post_snapshot request)
  | virtual_status_op => on_virtual (VirtualOperations._internal_status request)
  | initialize => on_virtual (VirtualOperations._internal_initialize request)
  | virtual_mount_spec =>
      on_virtual (VirtualOperations._internal_mount_specification request)
  end.

End WithImports.
End Plugin.

(** ** The operation matrix and the errors of the registries *)

Section Matrix.
Context {I : Imports}.
Import platform_pb2 Plugin.

(** The operations that are not required, each with the response it is
    meant to give while its slot is [None]. *)
Definition default_response (op : Operation) : option Response :=
  match op with
  | staged_pre_snapshot => Some StagedPreSnapshotResponse
  | start_staging => Some StartStagingResponse
  | stop_staging => Some StopStagingResponse
  | staged_status => Some (StagedStatusResponse ACTIVE)
  | staged_worker => Some StagedWorkerResponse
  | unconfigure => Some UnconfigureResponse
  | start => Some StartResponse
  | stop => Some StopResponse
  | virtual_pre_snapshot_op => Some VirtualPreSnapshotResponse
  | virtual_status_op => Some (VirtualStatusResponse ACTIVE)
  | _ => None
  end.

Definition optional (op : Operation) : bool :=
  match default_response op with
  | Some _ => true
  | None => false
  end.

Definition required (op : Operation) : bool := negb (optional op).

(** Registering over a bound slot. *)
Definition DuplicateRegistrationError (s : Slot) : Exception :=
  already_defined (slot_name s).

(** Calling a required wrapper whose slot is [None]. *)
Definition UnimplementedOperationError (op : Operation) : Exception :=
  match op with
  | configure => VirtualOperations.configure_not_defined
  | _ => not_defined (slot_name (slot_of op))
  end.

(** A staged mount specification with [n] mounts, [n] other than one. *)
Definition MountCardinalityError (n : nat) : Exception :=
  LinkedOperations.exactly_one_mount n.

Definition loads_ok {T : Type} (from_dict : Dict -> Result T) (s : string) : bool :=
  match from_dict_loads from_dict s with
  | inr _ => true
  | inl _ => false
  end.

(** The payloads the wrapper of [op] deserializes all deserialize.  A
    required wrapper deserializes them before it looks at its slot. *)
Definition deserializable (op : Operation) (request : Request.t) : bool :=
  match op with
  | repository_discovery => true
  | source_config_discovery =>
      loads_ok RepositoryDefinition_from_dict (repository_json request)
  | direct_pre_snapshot | direct_post_snapshot =>
      loads_ok LinkedSourceDefinition_from_dict (direct_source_json request)
      && loads_ok RepositoryDefinition_from_dict (repository_json request)
      && loads_ok SourceConfigDefinition_from_dict (source_config_json request)
  | staged_mount_spec =>
      loads_ok LinkedSourceDefinition_from_dict (staged_source_json request)
      && loads_ok RepositoryDefinition_from_dict (repository_json request)
  | staged_pre_snapshot | staged_post_snapshot | start_staging | stop_staging
  | staged_status | staged_worker =>
      loads_ok LinkedSourceDefinition_from_dict (staged_source_json request)
      && loads_ok RepositoryDefinition_from_dict (repository_json request)
      && loads_ok SourceConfigDefinition_from_dict (source_config_json request)
  | configure =>
      loads_ok VirtualSourceDefinition_from_dict (virtual_source_json request)
      && loads_ok RepositoryDefinition_from_dict (repository_json request)
      && loads_ok SnapshotDefinition_from_dict (snapshot_json request)
  | reconfigure =>
      loads_ok VirtualSourceDefinition_from_dict (virtual_source_json request)
      && loads_ok SnapshotDefinition_from_dict (snapshot_json request)
      && loads_ok SourceConfigDefinition_from_dict (source_config_json request)
  | virtual_mount_spec =>
      loads_ok VirtualSourceDefinition_from_dict (virtual_source_json request)
      && loads_ok RepositoryDefinition_from_dict (repository_json request)
  | unconfigure | start | stop | virtual_pre_snapshot_op | virtual_post_snapshot_op
  | virtual_status_op | initialize =>
      loads_ok VirtualSourceDefinition_from_dict (virtual_source_json request)
      && loads_ok RepositoryDefinition_from_dict (repository_json request)
      && loads_ok SourceConfigDefinition_from_dict (source_config_json request)
  end.

(** The trace entry of one call of the implementation of [op]. *)
Definition called (op : Operation) (kw : Kwargs) : Call :=
  {| operation := slot_name (slot_of op); kwargs := kw |}.

(** The shared path as the schema's string field holds it. *)
Definition path_string (p : option string) : string :=
  match p with
  | Some s => s
  | None => EmptyString
  end.

(** The keyword arguments of [virtual.configure]: the virtual source made
    of the request's guid and connection and the deserialized parameters,
    then the repository and the snapshot. *)
Definition configure_kwargs (request : Request.t) (parameters : VirtualSourceDefinition)
    (repository : RepositoryDefinition) (snapshot : SnapshotDefinition) : Kwargs :=
  [("virtual_source",
    PyVirtualSource
      {| platform.VirtualSource.guid :=
           common_pb2.VirtualSource.guid (Request.virtual_source request);
         platform.VirtualSource.connection :=
           common_pb2.VirtualSource.connection (Request.virtual_source request);
         platform.VirtualSource.parameters := parameters |});
   ("repository", PyRepositoryDefinition repository);
   ("snapshot", PySnapshotDefinition snapshot)].

(** The keyword arguments of [virtual.mount_specification]. *)
Definition virtual_mount_kwargs (request : Request.t)
    (parameters : VirtualSourceDefinition) (repository : RepositoryDefinition)
    : Kwargs :=
  [("repository", PyRepositoryDefinition repository);
   ("virtual_source", PyVirtualSource (new_VirtualSource request parameters))].

(** The keyword arguments of [linked.mount_specification]. *)
Definition staged_mount_kwargs (request : Request.t)
    (parameters : LinkedSourceDefinition) (repository : RepositoryDefinition)
    : Kwargs :=
  [("staged_source",
    PyStagedSource (new_StagedSource request parameters (new_Mount request)));
   ("repository", PyRepositoryDefinition repository)].

(** The response of the wrappers whose result is empty. *)
Definition empty_response (op : Operation) : option Response :=
  match op with
  | direct_pre_snapshot => Some DirectPreSnapshotResponse
  | staged_pre_snapshot => Some StagedPreSnapshotResponse
  | start_staging => Some StartStagingResponse
  | stop_staging => Some StopStagingResponse
  | staged_worker => Some StagedWorkerResponse
  | unconfigure => Some UnconfigureResponse
  | start => Some StartResponse
  | stop => Some StopResponse
  | virtual_pre_snapshot_op => Some VirtualPreSnapshotResponse
  | initialize => Some InitializeResponse
  | _ => None
  end.

(** The names of the keyword arguments each wrapper passes, in the order
    of the call. *)
Definition keywords (op : Operation) : list string :=
  match op with
  | repository_discovery => ["source_connection"]
  | source_config_discovery => ["source_connection"; "repository"]
  | direct_pre_snapshot | direct_post_snapshot =>
      ["direct_source"; "repository"; "source_config"]
  | staged_pre_snapshot | staged_post_snapshot | start_staging | stop_staging
  | staged_status | staged_worker =>
      ["staged_source"; "repository"; "source_config"]
  | staged_mount_spec => ["staged_source"; "repository"]
  | configure => ["virtual_source"; "repository"; "snapshot"]
  | reconfigure => ["snapshot"; "source_config"; "virtual_source"]
  | virtual_mount_spec => ["repository"; "virtual_source"]
  | unconfigure | start | stop | virtual_pre_snapshot_op | virtual_post_snapshot_op
  | virtual_status_op | initialize =>
      ["repository"; "source_config"; "virtual_source"]
  end.

(** The keyword arguments of [virtual.reconfigure]. *)
Definition reconfigure_kwargs (request : Request.t)
    (parameters : VirtualSourceDefinition) (snapshot : SnapshotDefinition)
    (source_config : SourceConfigDefinition) : Kwargs :=
  [("snapshot", PySnapshotDefinition snapshot);
   ("source_config", PySourceConfigDefinition source_config);
   ("virtual_source", PyVirtualSource (new_VirtualSource request parameters))].

(** What is done to a plugin during its life: an implementation is
    registered, or the runtime calls a wrapper. *)
Inductive Action : Type :=
| Registration (s : Slot) (impl : Implementation (returns s))
| Invocation (op : Operation) (request : Request.t).

(** One action: the plugin and the trace it leaves, raised or not. *)
Definition step (a : Action) (self : Plugin.t) (trace : list Call)
    : Plugin.t * list Call :=
  match a with
  | Registration s impl => fst (register s impl self trace)
  | Invocation op request => fst (dispatch op request self trace)
  end.

(** A sequence of actions, one after the other on the same plugin. *)
Fixpoint run (actions : list Action) (self : Plugin.t) (trace : list Call)
    : Plugin.t * list Call :=
  match actions with
  | [] => (self, trace)
  | a :: rest => run rest (fst (step a self trace)) (snd (step a self trace))
  end.

(** Two requests carry the same request message of [op]: they agree on the
    fields that message has. *)
Definition same_message (op : Operation) (request1 request2 : Request.t) : Prop :=
  match op with
  | repository_discovery =>
      Request.source_connection request1 = Request.source_connection request2
  | source_config_discovery =>
      Request.source_connection request1 = Request.source_connection request2
      /\ Request.repository request1 = Request.repository request2
  | direct_pre_snapshot | direct_post_snapshot =>
      Request.direct_source request1 = Request.direct_source request2
      /\ Request.repository request1 = Request.repository request2
      /\ Request.source_config request1 = Request.source_config request2
  | staged_mount_spec =>
      Request.staged_source request1 = Request.staged_source request2
      /\ Request.repository request1 = Request.repository request2
  | staged_pre_snapshot | staged_post_snapshot | start_staging | stop_staging
  | staged_status | staged_worker =>
      Request.staged_source request1 = Request.staged_source request2
      /\ Request.repository request1 = Request.repository request2
      /\ Request.source_config request1 = Request.source_config request2
  | configure =>
      Request.virtual_source request1 = Request.virtual_source request2
      /\ Request.repository request1 = Request.repository request2
      /\ Request.snapshot request1 = Request.snapshot request2
  | reconfigure =>
      Request.virtual_source request1 = Request.virtual_source request2
      /\ Request.snapshot request1 = Request.snapshot request2
      /\ Request.source_config request1 = Request.source_config request2
  | virtual_mount_spec =>
      Request.virtual_source request1 = Request.virtual_source request2
      /\ Request.repository request1 = Request.repository request2
  | unconfigure | start | stop | virtual_pre_snapshot_op | virtual_post_snapshot_op
  | virtual_status_op | initialize =>
      Request.virtual_source request1 = Request.virtual_source request2
      /\ Request.repository request1 = Request.repository request2
      /\ Request.source_config request1 = Request.source_config request2
  end.

(** The exception of a payload that does not deserialize. *)
Definition load_error {T : Type} (from_dict : Dict -> Result T) (s : string)
    : option Exception :=
  match from_dict_loads from_dict s with
  | inl e => Some e
  | inr _ => None
  end.

(** The first exception of a list of attempts, in their order. *)
Definition first_error (attempts : list (option Exception)) : option Exception :=
  fold_right (fun attempt later =>
                match attempt with
                | Some e => Some e
                | None => later
                end) None attempts.

(** The exception of the first payload, in the order the wrapper of [op]
    deserializes them, that does not deserialize. *)
Definition deserialization_error (op : Operation) (request : Request.t)
    : option Exception :=
  let repository := load_error RepositoryDefinition_from_dict (repository_json request) in
  let source_config :=
    load_error SourceConfigDefinition_from_dict (source_config_json request) in
  let snapshot := load_error SnapshotDefinition_from_dict (snapshot_json request) in
  let direct_source :=
    load_error LinkedSourceDefinition_from_dict (direct_source_json request) in
  let staged_source :=
    load_error LinkedSourceDefinition_from_dict (staged_source_json request) in
  let virtual_source :=
    load_error VirtualSourceDefinition_from_dict (virtual_source_json request) in
  match op with
  | repository_discovery => None
  | source_config_discovery => first_error [repository]
  | direct_pre_snapshot | direct_post_snapshot =>
      first_error [direct_source; repository; source_config]
  | staged_mount_spec => first_error [staged_source; repository]
  | staged_pre_snapshot | staged_post_snapshot | start_staging | stop_staging
  | staged_status | staged_worker =>
      first_error [staged_source; repository; source_config]
  | configure => first_error [virtual_source; repository; snapshot]
  | reconfigure => first_error [virtual_source; snapshot; source_config]
  | virtual_mount_spec => first_error [virtual_source; repository]
  | unconfigure | start | stop | virtual_pre_snapshot_op | virtual_post_snapshot_op
  | virtual_status_op | initialize =>
      first_error [virtual_source; repository; source_config]
  end.

(** The ownership, if there is one, has a uid and a gid that fit the
    integer fields of the schema. *)
Definition ownership_in_range
    (ownership_specification : option platform.OwnershipSpecification.t) : bool :=
  match ownership_specification with
  | Some ownership_spec =>
      common_pb2.int32 (platform.OwnershipSpecification.uid ownership_spec)
      && common_pb2.int32 (platform.OwnershipSpecification.gid ownership_spec)
  | None => true
  end.

(** The ownership copied field by field. *)
Definition ownership_copy
    (ownership_specification : option platform.OwnershipSpecification.t)
    : option common_pb2.OwnershipSpec.t :=
  match ownership_specification with
  | Some ownership_spec =>
      Some {| common_pb2.OwnershipSpec.uid :=
                platform.OwnershipSpecification.uid ownership_spec;
              common_pb2.OwnershipSpec.gid :=
                platform.OwnershipSpecification.gid ownership_spec |}
  | None => None
  end.

End Matrix.

(** ** An instance of the imports *)

(** A plugin to run the registries on.  Its payloads are the JSON objects
    whose values are strings: [dumps] writes them the way [json.dumps]
    does, [loads] reads them back and raises [ValueError] on anything else.
    Its definitions are the dictionaries themselves. *)
Module Example.
Import Ascii.

Definition dquote : ascii := ascii_of_nat 34.
Definition backslash : ascii := ascii_of_nat 92.

Definition quoted (s : string) : string :=
  String dquote (s ++ String dquote EmptyString).

Fixpoint members (d : list (string * string)) : string :=
  match d with
  | [] => EmptyString
  | [(k, v)] => quoted k ++ ": " ++ quoted v
  | (k, v) :: d' => quoted k ++ ": " ++ quoted v ++ ", " ++ members d'
  end.

Definition dumps (d : list (string * string)) : string :=
  "{" ++ members d ++ "}".

Fixpoint skip (s : string) : string :=
  match s with
  | String " " s' => skip s'
  | _ => s
  end.

(** The characters up to the closing quote, and what follows it. *)
Fixpoint chars (s : string) : option (string * string) :=
  match s with
  | EmptyString => None
  | String c s' =>
      if Ascii.eqb c dquote then Some (EmptyString, s')
      else if Ascii.eqb c backslash then None
      else match chars s' with
           | Some (t, rest) => Some (String c t, rest)
           | None => None
           end
  end.

Definition expect (c : ascii) (s : string) : option string :=
  match skip s with
  | String c' s' => if Ascii.eqb c c' then Some s' else None
  | EmptyString => None
  end.

Definition str (s : string) : option (string * string) :=
  match expect dquote s with
  | Some s' => chars s'
  | None => None
  end.

Definition member (s : string) : option ((string * string) * string) :=
  match str s with
  | Some (k, s1) =>
      match expect ":" s1 with
      | Some s2 =>
          match str s2 with
          | Some (v, s3) => Some ((k, v), s3)
          | None => None
          end
      | None => None
      end
  | None => None
  end.

(** After a member: a comma and more members, or the closing brace. *)
Fixpoint more (fuel : nat) (s : string) : option (list (string * string) * string) :=
  match fuel with
  | O => None
  | S fuel' =>
      match expect "}" s with
      | Some rest => Some ([], rest)
      | None =>
          match expect "," s with
          | Some s1 =>
              match member s1 with
              | Some (kv, s2) =>
                  match more fuel' s2 with
                  | Some (d, rest) => Some (kv :: d, rest)
                  | None => None
                  end
              | None => None
              end
          | None => None
          end
      end
  end.

Definition object (s : string) : option (list (string * string) * string) :=
  match expect "{" s with
  | Some s1 =>
      match expect "}" s1 with
      | Some rest => Some ([], rest)
      | None =>
          match member s1 with
          | Some (kv, s2) =>
              match more (String.length s) s2 with
              | Some (d, rest) => Some (kv :: d, rest)
              | None => None
              end
          | None => None
          end
      end
  | None => None
  end.

Definition not_decoded : Exception :=
  OtherError "ValueError" "No JSON object could be decoded".

Definition loads (s : string) : Result (list (string * string)) :=
  match object s with
  | Some (d, rest) =>
      match skip rest with
      | EmptyString => inr d
      | _ => inl not_decoded
      end
  | None => inl not_decoded
  end.

#[export] Instance imports : Imports := {|
  RemoteConnection := string;
  Dict := list (string * string);
  json_loads := loads;
  json_dumps := dumps;
  RepositoryDefinition := list (string * string);
  RepositoryDefinition_from_dict := inr;
  RepositoryDefinition_to_dict := fun d => d;
  SourceConfigDefinition := list (string * string);
  SourceConfigDefinition_from_dict := inr;
  SourceConfigDefinition_to_dict := fun d => d;
  LinkedSourceDefinition := list (string * string);
  LinkedSourceDefinition_from_dict := inr;
  VirtualSourceDefinition := list (string * string);
  VirtualSourceDefinition_from_dict := inr;
  SnapshotDefinition := list (string * string);
  SnapshotDefinition_from_dict := inr;
  SnapshotDefinition_to_dict := fun d => d
|}.

Import common_pb2 platform_pb2.

Definition payload (d : list (string * string)) : PluginDefinedObject.t :=
  {| PluginDefinedObject.json := dumps d |}.

Definition host : RemoteHost.t :=
  {| RemoteHost.name := "db-host";
     RemoteHost.reference := "HOST-1";
     RemoteHost.binary_path := "/opt/toolkit";
     RemoteHost.scratch_path := "/var/tmp" |}.

Definition environment : RemoteEnvironment.t :=
  {| RemoteEnvironment.name := "staging";
     RemoteEnvironment.reference := "ENV-1";
     RemoteEnvironment.host := host |}.

(** A request whose payloads all deserialize: connection X, repository Y,
    snapshot Z. *)
Definition request : Request.t :=
  {| Request.source_connection := "X";
     Request.repository := {| Repository.parameters := payload [("name", "Y")] |};
     Request.source_config := {| SourceConfig.parameters := payload [("name", "C")] |};
     Request.snapshot := {| Snapshot.parameters := payload [("name", "Z")] |};
     Request.direct_source :=
       {| DirectSource.linked_source :=
            {| LinkedSource.guid := "guid-d"; LinkedSource.parameters := payload [] |};
          DirectSource.connection := "X" |};
     Request.staged_source :=
       {| StagedSource.linked_source :=
            {| LinkedSource.guid := "guid-s"; LinkedSource.parameters := payload [] |};
          StagedSource.connection := "X";
          StagedSource.staged_mount :=
            {| SingleEntireMount.remote_environment := environment;
               SingleEntireMount.mount_path := "/mnt/staging";
               SingleEntireMount.shared_path := EmptyString |} |};
     Request.virtual_source :=
       {| VirtualSource.guid := "guid-v";
          VirtualSource.connection := "X";
          VirtualSource.parameters := payload [("mode", "rw")] |} |}.

Definition garbage : PluginDefinedObject.t :=
  {| PluginDefinedObject.json := "not json" |}.

(** The same request with payloads that are not JSON. *)
Definition bad_request : Request.t :=
  {| Request.source_connection := "X";
     Request.repository := {| Repository.parameters := garbage |};
     Request.source_config := {| SourceConfig.parameters := garbage |};
     Request.snapshot := {| Snapshot.parameters := garbage |};
     Request.direct_source :=
       {| DirectSource.linked_source :=
            {| LinkedSource.guid := "guid-d"; LinkedSource.parameters := garbage |};
          DirectSource.connection := "X" |};
     Request.staged_source :=
       {| StagedSource.linked_source :=
            {| LinkedSource.guid := "guid-s"; LinkedSource.parameters := garbage |};
          StagedSource.connection := "X";
          StagedSource.staged_mount :=
            {| SingleEntireMount.remote_environment := environment;
               SingleEntireMount.mount_path := "/mnt/staging";
               SingleEntireMount.shared_path := EmptyString |} |};
     Request.virtual_source :=
       {| VirtualSource.guid := "guid-v";
          VirtualSource.connection := "X";
          VirtualSource.parameters := garbage |} |}.

Definition mount (path : string) (shared : option string) : platform.Mount.t :=
  {| platform.Mount.remote_environment := environment;
     platform.Mount.mount_path := path;
     platform.Mount.shared_path := shared |}.

Definition ownership : platform.OwnershipSpecification.t :=
  {| platform.OwnershipSpecification.uid := 1001;
     platform.OwnershipSpecification.gid := 1002 |}.

(** An implementation that returns [r] whatever it is called with. *)
Definition returning {R : Type} (r : R) : Implementation R := fun _ => inr r.

(** An implementation that raises. *)
Definition boom : Exception := OtherError "IOError" "disk full".
Definition raising {R : Type} : Implementation R := fun _ => inl boom.

Definition mount_spec (mounts : list platform.Mount.t) : platform.MountSpecification.t :=
  {| platform.MountSpecification.mounts := mounts;
     platform.MountSpecification.ownership_specification := Some ownership |}.

(** A uid one past the largest the schema's field holds. *)
Definition big_ownership : platform.OwnershipSpecification.t :=
  {| platform.OwnershipSpecification.uid := 2147483648;
     platform.OwnershipSpecification.gid := 1002 |}.

Definition big_mount_spec (mounts : list platform.Mount.t)
    : platform.MountSpecification.t :=
  {| platform.MountSpecification.mounts := mounts;
     platform.MountSpecification.ownership_specification := Some big_ownership |}.

Definition two_source_configs : list (list (string * string)) :=
  [[("name", "c1")]; [("name", "c2")]].

Definition version_1_0 : list (string * string) := [("version", "1.0")].

Definition three_mounts : list platform.Mount.t :=
  [mount "/mnt/a" None; mount "/mnt/b" (Some "/export/b"); mount "/mnt/c" None].

Definition shared_mount : platform.Mount.t :=
  mount "/mnt/staging" (Some "/export/shared").

Definition two_repositories : list (list (string * string)) :=
  [[("name", "a")]; [("name", "b")]].

(** Another request: other connection, guids and payloads. *)
Definition other_request : Request.t :=
  {| Request.source_connection := "X2";
     Request.repository := {| Repository.parameters := payload [("name", "Y2")] |};
     Request.source_config := {| SourceConfig.parameters := payload [] |};
     Request.snapshot := {| Snapshot.parameters := payload [("name", "Z2")] |};
     Request.direct_source :=
       {| DirectSource.linked_source :=
            {| LinkedSource.guid := "guid-d2"; LinkedSource.parameters := payload [] |};
          DirectSource.connection := "X2" |};
     Request.staged_source :=
       {| StagedSource.linked_source :=
            {| LinkedSource.guid := "guid-s2"; LinkedSource.parameters := payload [] |};
          StagedSource.connection := "X2";
          StagedSource.staged_mount :=
            {| SingleEntireMount.remote_environment := environment;
               SingleEntireMount.mount_path := "/mnt/other";
               SingleEntireMount.shared_path := "/export/other" |} |};
     Request.virtual_source :=
       {| VirtualSource.guid := "guid-v2";
          VirtualSource.connection := "X2";
          VirtualSource.parameters := payload [] |} |}.

(** The plugin after [impl] was registered in slot [s] of a new plugin. *)
Definition registered (s : Plugin.Slot) (impl : Implementation (Plugin.returns s))
    : Plugin.t :=
  fst (fst (Plugin.register s impl Plugin.__init__ [])).

End Example.

(** * Properties *)

(** ** Tactics to step through a method *)

#[local] Arguments from_dict_loads : simpl never.
#[local] Arguments repository_json : simpl never.
#[local] Arguments source_config_json : simpl never.
#[local] Arguments snapshot_json : simpl never.
#[local] Arguments direct_source_json : simpl never.
#[local] Arguments staged_source_json : simpl never.
#[local] Arguments virtual_source_json : simpl never.
#[local] Arguments already_defined : simpl never.
#[local] Arguments not_defined : simpl never.
#[local] Arguments VirtualOperations.configure_not_defined : simpl never.
#[local] Arguments LinkedOperations.exactly_one_mount : simpl never.
#[local] Arguments truthy_path : simpl never.
#[local] Arguments subscript : simpl never.
#[local] Arguments new_DirectSource : simpl never.
#[local] Arguments new_StagedSource : simpl never.
#[local] Arguments new_VirtualSource : simpl never.
#[local] Arguments new_Mount : simpl never.
#[local] Arguments to_protobuf_snapshot : simpl never.
#[local] Arguments to_protobuf_ownership_spec : simpl never.
#[local] Arguments marshal_ownership : simpl never.
#[local] Arguments VirtualOperations.to_protobuf_single_mount : simpl never.
#[local] Arguments VirtualOperations.source_config_of : simpl never.
#[local] Arguments DiscoveryOperations.to_protobuf_repository : simpl never.
#[local] Arguments DiscoveryOperations.to_protobuf_source_config : simpl never.
#[local] Arguments Nat.eqb : simpl never.

Ltac unfold_methods :=
  unfold Plugin.dispatch, Plugin.register,
    Plugin.on_discovery, Plugin.on_linked, Plugin.on_virtual,
    DiscoveryOperations._internal_repository,
    DiscoveryOperations._internal_source_config,
    DiscoveryOperations.repository_decorator,
    DiscoveryOperations.source_config_decorator,
    LinkedOperations._internal_direct_pre_snapshot,
    LinkedOperations._internal_direct_post_snapshot,
    LinkedOperations._internal_staged_pre_snapshot,
    LinkedOperations._internal_staged_post_snapshot,
    LinkedOperations._internal_start_staging,
    LinkedOperations._internal_stop_staging,
    LinkedOperations._internal_status,
    LinkedOperations._internal_worker,
    LinkedOperations._internal_mount_specification,
    LinkedOperations.to_protobuf_single_mount,
    LinkedOperations.pre_snapshot_decorator,
    LinkedOperations.post_snapshot_decorator,
    LinkedOperations.start_staging_decorator,
    LinkedOperations.stop_staging_decorator,
    LinkedOperations.status_decorator,
    LinkedOperations.worker_decorator,
    LinkedOperations.mount_specification_decorator,
    VirtualOperations._internal_configure,
    VirtualOperations._internal_unconfigure,
    VirtualOperations._internal_reconfigure,
    VirtualOperations._internal_start,
    VirtualOperations._internal_stop,
    VirtualOperations._internal_pre_snapshot,
    VirtualOperations._internal_post_snapshot,
    VirtualOperations._internal_status,
    VirtualOperations._internal_initialize,
    VirtualOperations._internal_mount_specification,
    VirtualOperations.configure_decorator,
    VirtualOperations.unconfigure_decorator,
    VirtualOperations.reconfigure_decorator,
    VirtualOperations.start_decorator,
    VirtualOperations.stop_decorator,
    VirtualOperations.pre_snapshot_decorator,
    VirtualOperations.post_snapshot_decorator,
    VirtualOperations.status_decorator,
    VirtualOperations.initialize_decorator,
    VirtualOperations.mount_specification_decorator,
    bind, getattr, setattr, ret, raise, eval, call, assert in *.

(** Unfold the method, then follow it with what is known of the slot. *)
Ltac step_with H := unfold_methods; simpl in H |- *; rewrite ?H; simpl.

(** Split on every deserialization, implementation call and test the goal
    or a hypothesis is stuck on. *)
Ltac split_run :=
  repeat (simpl in *;
          match goal with
          | |- context [match ?f ?x with inl _ => _ | inr _ => _ end] =>
              destruct (f x) eqn:?
          | H : context [match ?f ?x with inl _ => _ | inr _ => _ end] |- _ =>
              destruct (f x) eqn:?
          | |- context [if ?b then _ else _] => destruct b eqn:?
          | H : context [if ?b then _ else _] |- _ => destruct b eqn:?
          end);
  simpl in *.

Section Properties.
Context {I : Imports}.
Import platform_pb2 Plugin.

Lemma plugin_eta (self : Plugin.t) :
  {| discovery := discovery self; linked := linked self; virtual := virtual self |} = self.
Proof. destruct self; reflexivity. Qed.

Lemma trace_grows (A : Type) (l : list A) (x : A) : l = (l ++ [x])%list -> False.
Proof.
  intro H. apply (f_equal (@length A)) in H.
  rewrite length_app in H. simpl in H. lia.
Qed.

Lemma truthy_path_false (p : option string) :
  truthy_path p = false -> path_string p = EmptyString.
Proof.
  destruct p as [s |]; simpl; [| reflexivity].
  destruct s; simpl; [reflexivity | discriminate].
Qed.

Lemma marshal_ownership_in_range
    (ownership : option platform.OwnershipSpecification.t) :
  ownership_in_range ownership = true ->
  marshal_ownership ownership = inr (ownership_copy ownership).
Proof.
  destruct ownership as [[uid gid] |]; [| reflexivity].
  unfold ownership_in_range, marshal_ownership, to_protobuf_ownership_spec,
    common_pb2.set_int32.
  simpl. intros Hrange. apply andb_prop in Hrange as [Huid Hgid].
  rewrite Huid, Hgid. reflexivity.
Qed.

Lemma marshal_ownership_out_of_range
    (ownership : option platform.OwnershipSpecification.t) :
  ownership_in_range ownership = false ->
  exists message, marshal_ownership ownership = inl (OtherError "ValueError" message).
Proof.
  destruct ownership as [[uid gid] |]; [| discriminate].
  unfold ownership_in_range, marshal_ownership, to_protobuf_ownership_spec,
    common_pb2.set_int32.
  simpl. intros Hrange.
  destruct (common_pb2.int32 uid); [| eexists; reflexivity].
  simpl in Hrange. rewrite Hrange. eexists; reflexivity.
Qed.

End Properties.

Section Registration.
Context {I : Imports}.
Import platform_pb2 Plugin.

(** C4: the virtual status wrapper, called while its slot is unbound,
    does not answer ACTIVE: it reads the constant off the response class,
    which has no such attribute, and raises AttributeError, whatever the
    request; nothing is called and the plugin is as it was. *)
Theorem virtual_status_unbound_raises (request : Request.t)
    (self : Plugin.t) (trace : list Call) :
  bound virtual_status self = None ->
  dispatch virtual_status_op request self trace
  = (self, trace,
     inl (OtherError "AttributeError"
            "type object 'VirtualStatusResponse' has no attribute 'ACTIVE'")).
Proof.
  intros Hslot. step_with Hslot. rewrite plugin_eta. reflexivity.
Qed.

(** X19: the nine other wrappers of operations that are not required (the
    staged pre-snapshot, start and stop of staging, staged status and
    worker, and the virtual unconfigure, start, stop and pre-snapshot),
    called while their slot is unbound, do not raise: whatever the request
    they return the default response, an empty result or the status ACTIVE
    for the staged status, and leave plugin and trace as they were. *)
Theorem optional_unbound_answers (op : Operation) (request : Request.t)
    (self : Plugin.t) (trace : list Call) (response : Response) :
  default_response op = Some response ->
  op <> virtual_status_op ->
  bound (slot_of op) self = None ->
  dispatch op request self trace = (self, trace, inr response).
Proof.
  intros Hdefault Hop Hslot.
  destruct op; simpl in Hdefault; try discriminate;
    try (contradiction Hop; reflexivity);
    injection Hdefault as <-;
    step_with Hslot; rewrite plugin_eta; reflexivity.
Qed.


(** C2: in each of the nineteen slots of the three registries, registering
    over a bound slot raises the RuntimeError that says the operation has
    already been defined, and the implementation bound before is still the
    one in the slot; nothing else of the plugin changes either. *)
Theorem register_twice_fails (s : Slot) (first second : Implementation (returns s))
    (self : Plugin.t) (trace : list Call) :
  bound s self = Some first ->
  register s second self trace = (self, trace, inl (DuplicateRegistrationError s))
  /\ bound s (fst (fst (register s second self trace))) = Some first.
Proof.
  intros Hslot.
  assert (Hrun : register s second self trace
                 = (self, trace, inl (DuplicateRegistrationError s))).
  { destruct s; step_with Hslot; rewrite plugin_eta; reflexivity. }
  split; [exact Hrun |].
  rewrite Hrun. exact Hslot.
Qed.

(** Registering in an unbound slot binds it and hands the implementation
    back. *)
Lemma register_unbound (s : Slot) (impl : Implementation (returns s))
    (self : Plugin.t) (trace : list Call) :
  bound s self = None ->
  exists self', register s impl self trace = (self', trace, inr impl)
                /\ bound s self' = Some impl.
Proof.
  intros Hslot.
  destruct s; step_with Hslot; eexists; split; reflexivity.
Qed.

(** C3: a required wrapper called while its slot is unbound raises, calls
    no implementation and leaves the plugin as it was.  What it raises is
    the RuntimeError that says the operation has not been defined whenever
    the payloads it reads deserialize, which for repository discovery is
    always; otherwise it is the exception of the first payload, in the
    order the wrapper reads them, that does not deserialize. *)
Theorem required_unbound_fails (op : Operation) (request : Request.t)
    (self : Plugin.t) (trace : list Call) :
  required op = true ->
  bound (slot_of op) self = None ->
  exists e, dispatch op request self trace = (self, trace, inl e)
            /\ (deserializable op request = true ->
                e = UnimplementedOperationError op)
            /\ (deserializable op request = false ->
                deserialization_error op request = Some e).
Proof.
  intros Hrequired Hslot.
  destruct op; try discriminate Hrequired; clear Hrequired;
    unfold deserializable, loads_ok, deserialization_error, load_error;
    step_with Hslot;
    repeat match goal with
           | |- context [from_dict_loads ?f ?s] =>
               destruct (from_dict_loads f s); simpl
           end;
    rewrite ?plugin_eta; eexists; (split; [reflexivity |]); simpl;
    split; intros Hpayloads; first [discriminate Hpayloads | reflexivity].
Qed.

End Registration.


Section Dispatch.
Context {I : Imports}.
Import platform_pb2 Plugin.

(** C7: whatever the operation and the request, when the wrapper calls the
    bound implementation and the implementation raises, the wrapper ends
    in that very exception: no response, the call is the last entry of the
    trace, and the plugin, every slot of it, is as it was. *)
Theorem implementation_error_propagates (op : Operation) (request : Request.t)
    (self : Plugin.t) (trace : list Call)
    (impl : Implementation (returns (slot_of op))) (kw : Kwargs) (e : Exception) :
  bound (slot_of op) self = Some impl ->
  snd (fst (dispatch op request self trace)) = (trace ++ [called op kw])%list ->
  impl kw = inl e ->
  dispatch op request self trace = (self, (trace ++ [called op kw])%list, inl e).
Proof.
  intros Hslot Htrace Himpl.
  destruct op; unfold called in *; simpl in Hslot.
  all: unfold_methods; simpl in Htrace |- *; rewrite Hslot in Htrace |- *;
    split_run;
    try (exfalso; eapply trace_grows; eassumption);
    apply app_inv_head in Htrace; injection Htrace as <-;
    rewrite plugin_eta;
    match goal with
    | H1 : ?t = inl _, H2 : ?t = inl _ |- _ =>
        rewrite H1 in H2; injection H2 as ->; reflexivity
    | H1 : ?t = inr _, H2 : ?t = inl _ |- _ =>
        rewrite H1 in H2; discriminate H2
    end.
Qed.

(** C8: with [configure] bound and the three payloads of the request
    deserializing, the wrapper calls the implementation once, with exactly
    the keyword arguments [virtual_source], [repository] and [snapshot]
    built from the request; the payload of the response is [json.dumps]
    of the returned definition's [to_dict], so where that definition
    survives the round trip, deserializing the payload gives it back. *)
Theorem configure_end_to_end (request : Request.t) (self : Plugin.t)
    (trace : list Call) (impl : Implementation SourceConfigDefinition)
    (parameters : VirtualSourceDefinition) (repository : RepositoryDefinition)
    (snapshot : SnapshotDefinition) (config : SourceConfigDefinition) :
  bound virtual_configure self = Some impl ->
  from_dict_loads VirtualSourceDefinition_from_dict (virtual_source_json request)
    = inr parameters ->
  from_dict_loads RepositoryDefinition_from_dict (repository_json request)
    = inr repository ->
  from_dict_loads SnapshotDefinition_from_dict (snapshot_json request)
    = inr snapshot ->
  impl (configure_kwargs request parameters repository snapshot) = inr config ->
  from_dict_loads SourceConfigDefinition_from_dict
    (json_dumps (SourceConfigDefinition_to_dict config)) = inr config ->
  exists source_config,
    dispatch configure request self trace
    = (self,
       (trace ++ [called configure
                    (configure_kwargs request parameters repository snapshot)])%list,
       inr (ConfigureResponse source_config))
    /\ common_pb2.PluginDefinedObject.json
         (common_pb2.SourceConfig.parameters source_config)
       = json_dumps (SourceConfigDefinition_to_dict config)
    /\ from_dict_loads SourceConfigDefinition_from_dict
         (common_pb2.PluginDefinedObject.json
            (common_pb2.SourceConfig.parameters source_config))
       = inr config.
Proof.
  intros Hslot Hsource Hrepository Hsnapshot Himpl Hround.
  exists (VirtualOperations.source_config_of config).
  split; [| split; [reflexivity | exact Hround]].
  unfold configure_kwargs in Himpl. unfold called, configure_kwargs.
  unfold_methods. simpl in Hslot |- *.
  rewrite Hslot, Hsource, Hrepository, Hsnapshot. simpl.
  unfold new_VirtualSource. rewrite Himpl. simpl.
  rewrite plugin_eta. reflexivity.
Qed.

(** What the virtual wrapper does with a mount specification, whatever
    the number of its mounts: the ownership first, then the mounts. *)
Lemma virtual_mount_specification_run (request : Request.t) (self : Plugin.t)
    (trace : list Call) (impl : Implementation platform.MountSpecification.t)
    (parameters : VirtualSourceDefinition) (repository : RepositoryDefinition)
    (spec : platform.MountSpecification.t) :
  bound virtual_mount_specification self = Some impl ->
  from_dict_loads VirtualSourceDefinition_from_dict (virtual_source_json request)
    = inr parameters ->
  from_dict_loads RepositoryDefinition_from_dict (repository_json request)
    = inr repository ->
  impl (virtual_mount_kwargs request parameters repository) = inr spec ->
  dispatch virtual_mount_spec request self trace
  = (self,
     (trace ++ [called virtual_mount_spec
                  (virtual_mount_kwargs request parameters repository)])%list,
     match marshal_ownership
             (platform.MountSpecification.ownership_specification spec) with
     | inl e => inl e
     | inr ownership =>
         inr (VirtualMountSpecResponse ownership
                (map VirtualOperations.to_protobuf_single_mount
                   (platform.MountSpecification.mounts spec)))
     end).
Proof.
  intros Hslot Hsource Hrepository Himpl.
  unfold virtual_mount_kwargs in Himpl. unfold called, virtual_mount_kwargs.
  unfold_methods. simpl in Hslot |- *.
  rewrite Hslot, Hsource, Hrepository. simpl.
  rewrite Himpl. simpl.
  destruct (marshal_ownership
              (platform.MountSpecification.ownership_specification spec));
    simpl; rewrite plugin_eta; reflexivity.
Qed.

(** The entry the virtual wrapper makes of a mount carries the mount's
    path, its shared path when it has one, and environment and host
    rebuilt equal to the mount's. *)
Lemma virtual_entry_fields (m : platform.Mount.t) :
  common_pb2.SingleSubsetMount.mount_path (VirtualOperations.to_protobuf_single_mount m)
    = platform.Mount.mount_path m
  /\ common_pb2.SingleSubsetMount.shared_path (VirtualOperations.to_protobuf_single_mount m)
     = path_string (platform.Mount.shared_path m)
  /\ common_pb2.SingleSubsetMount.remote_environment
       (VirtualOperations.to_protobuf_single_mount m)
     = platform.Mount.remote_environment m.
Proof.
  destruct m as [[name reference [hname href binary scratch]] path shared].
  unfold VirtualOperations.to_protobuf_single_mount. simpl.
  repeat split.
  destruct (truthy_path shared) eqn:Htruthy.
  - destruct shared; [reflexivity | discriminate Htruthy].
  - symmetry. apply truthy_path_false. exact Htruthy.
Qed.

(** C6: with [virtual.mount_specification] bound and the request
    deserializing, an implementation that returns n mounts, n at least one,
    and an ownership, if any, whose uid and gid fit the integer fields of
    the schema, gets a response of exactly n entries in the order of the
    mounts, the i-th entry carrying the i-th mount's path, its shared path
    if any, and its environment with the host, rebuilt field by field. *)
Theorem virtual_mounts_in_order (request : Request.t) (self : Plugin.t)
    (trace : list Call) (impl : Implementation platform.MountSpecification.t)
    (parameters : VirtualSourceDefinition) (repository : RepositoryDefinition)
    (spec : platform.MountSpecification.t) :
  bound virtual_mount_specification self = Some impl ->
  from_dict_loads VirtualSourceDefinition_from_dict (virtual_source_json request)
    = inr parameters ->
  from_dict_loads RepositoryDefinition_from_dict (repository_json request)
    = inr repository ->
  impl (virtual_mount_kwargs request parameters repository) = inr spec ->
  1 <= length (platform.MountSpecification.mounts spec) ->
  ownership_in_range (platform.MountSpecification.ownership_specification spec)
    = true ->
  exists entries,
    dispatch virtual_mount_spec request self trace
    = (self,
       (trace ++ [called virtual_mount_spec
                    (virtual_mount_kwargs request parameters repository)])%list,
       inr (VirtualMountSpecResponse
              (ownership_copy
                 (platform.MountSpecification.ownership_specification spec))
              entries))
    /\ length entries = length (platform.MountSpecification.mounts spec)
    /\ forall i m,
         nth_error (platform.MountSpecification.mounts spec) i = Some m ->
         exists entry,
           nth_error entries i = Some entry
           /\ common_pb2.SingleSubsetMount.mount_path entry = platform.Mount.mount_path m
           /\ common_pb2.SingleSubsetMount.shared_path entry
              = path_string (platform.Mount.shared_path m)
           /\ common_pb2.SingleSubsetMount.remote_environment entry
              = platform.Mount.remote_environment m.
Proof.
  intros Hslot Hsource Hrepository Himpl _ Hrange.
  exists (map VirtualOperations.to_protobuf_single_mount
            (platform.MountSpecification.mounts spec)).
  split; [| split].
  - erewrite virtual_mount_specification_run; [| eassumption ..].
    rewrite (marshal_ownership_in_range _ Hrange). reflexivity.
  - apply length_map.
  - intros i m Hnth.
    exists (VirtualOperations.to_protobuf_single_mount m). split.
    + rewrite nth_error_map, Hnth. reflexivity.
    + apply virtual_entry_fields.
Qed.

(** C1: the virtual wrapper has no rule on the number of mounts.  With
    [virtual.mount_specification] bound and the request deserializing, an
    implementation that returns no mount never gets the RuntimeError that
    counts the mounts; when its ownership, if any, has a uid and a gid that
    fit the integer fields of the schema, it gets a response with an empty
    list of mounts and that ownership. *)
Theorem virtual_no_mounts_succeeds (request : Request.t) (self : Plugin.t)
    (trace : list Call) (impl : Implementation platform.MountSpecification.t)
    (parameters : VirtualSourceDefinition) (repository : RepositoryDefinition)
    (spec : platform.MountSpecification.t) :
  bound virtual_mount_specification self = Some impl ->
  from_dict_loads VirtualSourceDefinition_from_dict (virtual_source_json request)
    = inr parameters ->
  from_dict_loads RepositoryDefinition_from_dict (repository_json request)
    = inr repository ->
  impl (virtual_mount_kwargs request parameters repository) = inr spec ->
  platform.MountSpecification.mounts spec = [] ->
  (forall n,
      snd (dispatch virtual_mount_spec request self trace)
      <> inl (MountCardinalityError n))
  /\ (ownership_in_range (platform.MountSpecification.ownership_specification spec)
      = true ->
      dispatch virtual_mount_spec request self trace
      = (self,
         (trace ++ [called virtual_mount_spec
                      (virtual_mount_kwargs request parameters repository)])%list,
         inr (VirtualMountSpecResponse
                (ownership_copy
                   (platform.MountSpecification.ownership_specification spec))
                []))).
Proof.
  intros Hslot Hsource Hrepository Himpl Hmounts.
  erewrite virtual_mount_specification_run; [| eassumption ..].
  rewrite Hmounts. simpl. split.
  - intros n.
    destruct (ownership_in_range
                (platform.MountSpecification.ownership_specification spec))
      eqn:Hrange.
    + rewrite (marshal_ownership_in_range _ Hrange). discriminate.
    + destruct (marshal_ownership_out_of_range _ Hrange) as [message ->].
      discriminate.
  - intros Hrange. rewrite (marshal_ownership_in_range _ Hrange). reflexivity.
Qed.

(** What the staged wrapper does with a mount specification: the count,
    the assertion on the one mount, then the ownership. *)
Lemma staged_mount_specification_run (request : Request.t) (self : Plugin.t)
    (trace : list Call) (impl : Implementation platform.MountSpecification.t)
    (parameters : LinkedSourceDefinition) (repository : RepositoryDefinition)
    (spec : platform.MountSpecification.t) :
  bound linked_mount_specification self = Some impl ->
  from_dict_loads LinkedSourceDefinition_from_dict (staged_source_json request)
    = inr parameters ->
  from_dict_loads RepositoryDefinition_from_dict (repository_json request)
    = inr repository ->
  impl (staged_mount_kwargs request parameters repository) = inr spec ->
  dispatch staged_mount_spec request self trace
  = (self,
     (trace ++ [called staged_mount_spec
                  (staged_mount_kwargs request parameters repository)])%list,
     match platform.MountSpecification.mounts spec with
     | [m] =>
         if truthy_path (platform.Mount.shared_path m)
         then inl AssertionError
         else
           match marshal_ownership
                   (platform.MountSpecification.ownership_specification spec) with
           | inl e => inl e
           | inr ownership =>
               inr (StagedMountSpecResponse
                      {| common_pb2.SingleEntireMount.remote_environment :=
                           platform.Mount.remote_environment m;
                         common_pb2.SingleEntireMount.mount_path :=
                           platform.Mount.mount_path m;
                         common_pb2.SingleEntireMount.shared_path := EmptyString |}
                      ownership)
           end
     | mounts => inl (MountCardinalityError (length mounts))
     end).
Proof.
  intros Hslot Hsource Hrepository Himpl.
  unfold staged_mount_kwargs in Himpl.
  unfold called, staged_mount_kwargs, MountCardinalityError.
  unfold_methods. simpl in Hslot |- *.
  rewrite Hslot, Hsource, Hrepository. simpl.
  rewrite Himpl. simpl.
  destruct (platform.MountSpecification.mounts spec) as [| m [| m' rest]];
    unfold subscript, Nat.eqb; simpl; rewrite ?plugin_eta; try reflexivity.
  destruct (truthy_path (platform.Mount.shared_path m)); simpl;
    [rewrite plugin_eta; reflexivity |].
  destruct (marshal_ownership
              (platform.MountSpecification.ownership_specification spec));
    simpl; rewrite plugin_eta; reflexivity.
Qed.

(** C5: with [linked.mount_specification] bound and the request
    deserializing, an implementation that returns no mount, or more than
    one, makes the wrapper raise the RuntimeError that asks for exactly one
    mount; one that returns exactly one mount, without a shared path, and
    an ownership, if any, whose uid and gid fit the integer fields of the
    schema, gets a response whose staged mount has that mount's path and
    environment, and whose ownership is there exactly when the result has
    one. *)
Theorem staged_exactly_one_mount (request : Request.t) (self : Plugin.t)
    (trace : list Call) (impl : Implementation platform.MountSpecification.t)
    (parameters : LinkedSourceDefinition) (repository : RepositoryDefinition)
    (spec : platform.MountSpecification.t) :
  bound linked_mount_specification self = Some impl ->
  from_dict_loads LinkedSourceDefinition_from_dict (staged_source_json request)
    = inr parameters ->
  from_dict_loads RepositoryDefinition_from_dict (repository_json request)
    = inr repository ->
  impl (staged_mount_kwargs request parameters repository) = inr spec ->
  (length (platform.MountSpecification.mounts spec) <> 1 ->
   dispatch staged_mount_spec request self trace
   = (self,
      (trace ++ [called staged_mount_spec
                   (staged_mount_kwargs request parameters repository)])%list,
      inl (MountCardinalityError (length (platform.MountSpecification.mounts spec)))))
  /\ (forall m,
        platform.MountSpecification.mounts spec = [m] ->
        truthy_path (platform.Mount.shared_path m) = false ->
        ownership_in_range (platform.MountSpecification.ownership_specification spec)
          = true ->
        dispatch staged_mount_spec request self trace
        = (self,
           (trace ++ [called staged_mount_spec
                        (staged_mount_kwargs request parameters repository)])%list,
           inr (StagedMountSpecResponse
                  {| common_pb2.SingleEntireMount.remote_environment :=
                       platform.Mount.remote_environment m;
                     common_pb2.SingleEntireMount.mount_path :=
                       platform.Mount.mount_path m;
                     common_pb2.SingleEntireMount.shared_path := EmptyString |}
                  match platform.MountSpecification.ownership_specification spec with
                  | Some ownership =>
                      Some {| common_pb2.OwnershipSpec.uid :=
                                platform.OwnershipSpecification.uid ownership;
                              common_pb2.OwnershipSpec.gid :=
                                platform.OwnershipSpecification.gid ownership |}
                  | None => None
                  end))).
Proof.
  intros Hslot Hsource Hrepository Himpl.
  erewrite staged_mount_specification_run; [| eassumption ..].
  split.
  - intros Hlength.
    destruct (platform.MountSpecification.mounts spec) as [| m [| m' rest]];
      [reflexivity | | reflexivity].
    exfalso. apply Hlength. reflexivity.
  - intros m Hmounts Hshared Hrange. rewrite Hmounts, Hshared.
    rewrite (marshal_ownership_in_range _ Hrange). reflexivity.
Qed.

(** C9: the staged wrapper asserts that the one mount has no shared path.
    With [linked.mount_specification] bound and the request deserializing,
    an implementation that returns exactly one mount, with a shared path
    that is not empty, makes the wrapper raise AssertionError, without a
    response; and in every response the staged wrapper does return, the
    shared path of the staged mount is empty. *)
Theorem staged_shared_path_unsupported (request : Request.t) (self : Plugin.t)
    (trace : list Call) :
  (forall (impl : Implementation platform.MountSpecification.t)
          (parameters : LinkedSourceDefinition) (repository : RepositoryDefinition)
          (spec : platform.MountSpecification.t) (m : platform.Mount.t),
      bound linked_mount_specification self = Some impl ->
      from_dict_loads LinkedSourceDefinition_from_dict (staged_source_json request)
        = inr parameters ->
      from_dict_loads RepositoryDefinition_from_dict (repository_json request)
        = inr repository ->
      impl (staged_mount_kwargs request parameters repository) = inr spec ->
      platform.MountSpecification.mounts spec = [m] ->
      truthy_path (platform.Mount.shared_path m) = true ->
      dispatch staged_mount_spec request self trace
      = (self,
         (trace ++ [called staged_mount_spec
                      (staged_mount_kwargs request parameters repository)])%list,
         inl AssertionError))
  /\ (forall staged_mount ownership_spec,
        snd (dispatch staged_mount_spec request self trace)
        = inr (StagedMountSpecResponse staged_mount ownership_spec) ->
        common_pb2.SingleEntireMount.shared_path staged_mount = EmptyString).
Proof.
  split.
  - intros impl parameters repository spec m Hslot Hsource Hrepository Himpl
           Hmounts Hshared.
    erewrite staged_mount_specification_run; [| eassumption ..].
    rewrite Hmounts, Hshared. reflexivity.
  - intros staged_mount ownership_spec Hrun.
    unfold_methods. simpl in Hrun.
    destruct (LinkedOperations.mount_specification_impl (linked self));
      split_run; try discriminate Hrun.
    injection Hrun as <- _. reflexivity.
Qed.

End Dispatch.

(** ** The life of a plugin *)

Section Lifetime.
Context {I : Imports}.
Import platform_pb2 Plugin.

(** X1: registering in an unbound slot raises nothing and hands back the
    implementation it was given; afterwards that slot holds it, every
    other slot of the three registries holds what it held, and no
    implementation was called. *)
Theorem register_unbound_frame (s : Slot) (impl : Implementation (returns s))
    (self : Plugin.t) (trace : list Call) :
  bound s self = None ->
  exists self',
    register s impl self trace = (self', trace, inr impl)
    /\ bound s self' = Some impl
    /\ forall s', s' <> s -> bound s' self' = bound s' self.
Proof.
  intros Hslot.
  destruct s; step_with Hslot; eexists; (split; [reflexivity |]);
    (split; [reflexivity |]);
    intros s' Hne; destruct s'; try reflexivity; contradiction Hne; reflexivity.
Qed.

(** The plugin a registration leaves. *)
Lemma register_bound_state (s : Slot) (first impl : Implementation (returns s))
    (self : Plugin.t) (trace : list Call) :
  bound s self = Some first ->
  fst (fst (register s impl self trace)) = self.
Proof.
  intros Hslot. destruct s; step_with Hslot; apply plugin_eta.
Qed.

Lemma register_keeps_others (s s' : Slot) (impl : Implementation (returns s))
    (self : Plugin.t) (trace : list Call) :
  s' <> s ->
  bound s' (fst (fst (register s impl self trace))) = bound s' self.
Proof.
  intros Hne.
  destruct (bound s self) as [first |] eqn:Hslot.
  - rewrite register_bound_state with (first := first) by exact Hslot.
    reflexivity.
  - destruct s; step_with Hslot; destruct s'; try reflexivity;
      contradiction Hne; reflexivity.
Qed.

Lemma register_keeps_bound (s : Slot) (first impl : Implementation (returns s))
    (self : Plugin.t) (trace : list Call) :
  bound s self = Some first ->
  bound s (fst (fst (register s impl self trace))) = Some first.
Proof.
  intros Hslot.
  rewrite register_bound_state with (first := first) by exact Hslot.
  exact Hslot.
Qed.

(** X2: no wrapper assigns to the plugin.  Whatever the operation, the
    request, the slots and the outcome (response, exception of the wrapper
    or of the implementation), the plugin after the call is the plugin
    before it. *)
Theorem dispatch_preserves_plugin (op : Operation) (request : Request.t)
    (self : Plugin.t) (trace : list Call) :
  fst (fst (dispatch op request self trace)) = self.
Proof.
  destruct op; unfold_methods; simpl;
    match goal with
    | |- context [match ?slot with Some _ => _ | None => _ end] => destruct slot
    end;
    split_run; apply plugin_eta.
Qed.

(** X3: a wrapper calls at most one implementation, and only the one of
    its own slot: the trace after the call is the trace before it, or the
    trace before it followed by one call under the name of that slot. *)
Theorem dispatch_calls_at_most_once (op : Operation) (request : Request.t)
    (self : Plugin.t) (trace : list Call) :
  snd (fst (dispatch op request self trace)) = trace
  \/ exists kw,
       snd (fst (dispatch op request self trace)) = (trace ++ [called op kw])%list.
Proof.
  destruct op; unfold called; unfold_methods; simpl;
    match goal with
    | |- context [match ?slot with Some _ => _ | None => _ end] => destruct slot
    end;
    split_run;
    first [left; reflexivity | right; eexists; reflexivity].
Qed.

(** X4: registrations in two different slots can be made in either order:
    the plugin is the same afterwards, whether the slots were bound or
    not. *)
Theorem register_commutes (s1 s2 : Slot) (impl1 : Implementation (returns s1))
    (impl2 : Implementation (returns s2)) (self : Plugin.t)
    (trace trace' : list Call) :
  s1 <> s2 ->
  fst (fst (register s2 impl2 (fst (fst (register s1 impl1 self trace))) trace'))
  = fst (fst (register s1 impl1 (fst (fst (register s2 impl2 self trace))) trace')).
Proof.
  intros Hne.
  destruct self as [[d1 d2] [l1 l2 l3 l4 l5 l6 l7] [v1 v2 v3 v4 v5 v6 v7 v8 v9 v10]].
  destruct s1; destruct s2; try (contradiction Hne; reflexivity); clear Hne;
    unfold_methods; simpl;
    repeat match goal with
           | |- context [match ?slot with Some _ => _ | None => _ end] =>
               is_var slot; destruct slot; simpl
           end;
    reflexivity.
Qed.

(** What one action leaves of a bound slot. *)
Lemma step_keeps_bound (a : Action) (s : Slot) (impl : Implementation (returns s))
    (self : Plugin.t) (trace : list Call) :
  bound s self = Some impl ->
  bound s (fst (step a self trace)) = Some impl.
Proof.
  intros Hslot. destruct a as [s' impl' | op request]; simpl.
  - destruct (bound s' self) as [first |] eqn:Hslot'.
    + rewrite register_bound_state with (first := first) by exact Hslot'.
      exact Hslot.
    + assert (Hne : s <> s').
      { intros ->. rewrite Hslot in Hslot'. discriminate Hslot'. }
      rewrite (register_keeps_others impl' self trace Hne). exact Hslot.
  - rewrite dispatch_preserves_plugin. exact Hslot.
Qed.

(** X5: a slot is bound once and for all.  Through any sequence of
    registrations and calls of wrappers, raised or not, a slot that holds
    an implementation holds the same implementation at the end. *)
Theorem bound_slot_is_kept (actions : list Action) (s : Slot)
    (impl : Implementation (returns s)) (self : Plugin.t) (trace : list Call) :
  bound s self = Some impl ->
  bound s (fst (run actions self trace)) = Some impl.
Proof.
  revert self trace.
  induction actions as [| a rest IH]; intros self trace Hslot; simpl.
  - exact Hslot.
  - apply IH. apply step_keeps_bound. exact Hslot.
Qed.

End Lifetime.

(** ** What a wrapper reads and what it answers *)

Section Wrappers.
Context {I : Imports}.
Import platform_pb2 Plugin.

(** X6: with its slot bound, a wrapper calls the implementation exactly
    when the payloads it reads all deserialize; when one does not, it
    raises before the call, and nothing was called. *)
Theorem bound_dispatch_unpacks_then_calls (op : Operation) (request : Request.t)
    (self : Plugin.t) (trace : list Call)
    (impl : Implementation (returns (slot_of op))) :
  bound (slot_of op) self = Some impl ->
  (deserializable op request = true ->
   exists kw,
     snd (fst (dispatch op request self trace)) = (trace ++ [called op kw])%list)
  /\ (deserializable op request = false ->
      exists e, dispatch op request self trace = (self, trace, inl e)).
Proof.
  intros Hslot.
  destruct op; unfold called, deserializable, loads_ok; simpl in Hslot;
    unfold_methods; simpl; rewrite Hslot; simpl;
    repeat match goal with
           | |- context [from_dict_loads ?f ?s] =>
               destruct (from_dict_loads f s); simpl
           end;
    rewrite ?plugin_eta;
    (split; intros Hpayloads; try discriminate Hpayloads);
    first [ eexists; reflexivity | split_run; eexists; reflexivity ].
Qed.

(** X7: a wrapper looks at no slot but its own.  On two plugins whose
    slots for the operation agree, the same request gets the same outcome
    and the same calls, whatever the other slots hold. *)
Theorem dispatch_reads_own_slot (op : Operation) (request : Request.t)
    (self1 self2 : Plugin.t) (trace : list Call) :
  bound (slot_of op) self1 = bound (slot_of op) self2 ->
  snd (dispatch op request self1 trace) = snd (dispatch op request self2 trace)
  /\ snd (fst (dispatch op request self1 trace))
     = snd (fst (dispatch op request self2 trace)).
Proof.
  intros Hslot.
  destruct op; simpl in Hslot; unfold_methods; simpl; rewrite Hslot;
    match goal with
    | |- context [match ?slot with Some _ => _ | None => _ end] => destruct slot
    end;
    split_run; split; reflexivity.
Qed.

(** X8: the ten operations with an empty result answer the same response
    whenever they answer: nothing the implementation returns, and nothing
    of the request, is in it. *)
Theorem empty_result_response (op : Operation) (request : Request.t)
    (self : Plugin.t) (trace : list Call) (expected response : Response) :
  empty_response op = Some expected ->
  snd (dispatch op request self trace) = inr response ->
  response = expected.
Proof.
  intros Hempty Hrun.
  destruct op; try discriminate Hempty; injection Hempty as <-;
    unfold_methods; simpl in Hrun;
    match goal with
    | H : context [match ?slot with Some _ => _ | None => _ end] |- _ =>
        destruct slot
    end;
    split_run; try discriminate Hrun; injection Hrun as <-; reflexivity.
Qed.

(** X9: a source is reported inactive only by an implementation.  When
    the staged or the virtual status wrapper answers INACTIVE, the status
    slot is bound and the implementation in it returned INACTIVE on the
    keyword arguments of the call; without an implementation the answer
    is never INACTIVE. *)
Theorem inactive_only_from_implementation (request : Request.t)
    (self : Plugin.t) (trace : list Call) :
  (snd (dispatch staged_status request self trace)
   = inr (StagedStatusResponse INACTIVE) ->
   exists impl kw,
     bound linked_status self = Some impl
     /\ snd (fst (dispatch staged_status request self trace))
        = (trace ++ [called staged_status kw])%list
     /\ impl kw = inr platform.Status.INACTIVE)
  /\ (snd (dispatch virtual_status_op request self trace)
      = inr (VirtualStatusResponse INACTIVE) ->
      exists impl kw,
        bound virtual_status self = Some impl
        /\ snd (fst (dispatch virtual_status_op request self trace))
           = (trace ++ [called virtual_status_op kw])%list
        /\ impl kw = inr platform.Status.INACTIVE).
Proof.
  split; intros Hrun; unfold called; unfold_methods; simpl in Hrun |- *.
  - destruct (LinkedOperations.status_impl (linked self)) as [impl |];
      [| discriminate Hrun].
    exists impl. split_run; try discriminate Hrun.
    eexists. split; [reflexivity |]. split; [reflexivity |].
    match goal with
    | H : impl _ = inr ?s |- _ => destruct s; [discriminate Hrun | exact H]
    end.
  - destruct (VirtualOperations.status_impl (virtual self)) as [impl |];
      [| discriminate Hrun].
    exists impl. split_run; try discriminate Hrun.
    eexists. split; [reflexivity |]. split; [reflexivity |].
    match goal with
    | H : impl _ = inr ?s |- _ => destruct s; [discriminate Hrun | exact H]
    end.
Qed.

(** After the call the outcome is a function of the returned value. *)
Lemma outcome_of_return_value (op : Operation) :
  exists marshal : returns (slot_of op) -> Result Response,
    forall (request : Request.t) (self : Plugin.t) (trace : list Call)
           (impl : Implementation (returns (slot_of op))) (kw : Kwargs)
           (value : returns (slot_of op)),
      bound (slot_of op) self = Some impl ->
      snd (fst (dispatch op request self trace)) = (trace ++ [called op kw])%list ->
      impl kw = inr value ->
      snd (dispatch op request self trace) = marshal value.
Proof.
  destruct op.
  11: {
    exists (fun spec : platform.MountSpecification.t =>
              match platform.MountSpecification.mounts spec with
              | [m] =>
                  if truthy_path (platform.Mount.shared_path m)
                  then inl AssertionError
                  else
                    match marshal_ownership
                            (platform.MountSpecification.ownership_specification
                               spec) with
                    | inl e => inl e
                    | inr ownership =>
                        inr (StagedMountSpecResponse
                               {| common_pb2.SingleEntireMount.remote_environment :=
                                    platform.Mount.remote_environment m;
                                  common_pb2.SingleEntireMount.mount_path :=
                                    platform.Mount.mount_path m;
                                  common_pb2.SingleEntireMount.shared_path :=
                                    EmptyString |}
                               ownership)
                    end
              | mounts => inl (LinkedOperations.exactly_one_mount (length mounts))
              end).
    intros request self trace impl kw value Hslot Htrace Himpl.
    unfold called in *; simpl in Hslot.
    unfold_methods; simpl in Htrace |- *; rewrite Hslot in Htrace |- *.
    repeat match goal with
           | |- context [from_dict_loads ?f ?s] =>
               destruct (from_dict_loads f s); simpl in Htrace |- *
           end;
      try (exfalso; eapply trace_grows; eassumption).
    match goal with
    | |- context [match impl ?x with inl _ => _ | inr _ => _ end] =>
        destruct (impl x) as [e | returned] eqn:Hcall; simpl in Htrace |- *
    end.
    - apply app_inv_head in Htrace; injection Htrace as <-.
      rewrite Hcall in Himpl. discriminate Himpl.
    - assert (Hkw : impl kw = inr returned).
      { destruct (platform.MountSpecification.mounts returned) as [| m [| m' rest]];
          unfold subscript, Nat.eqb in Htrace; simpl in Htrace;
          try destruct (truthy_path (platform.Mount.shared_path m));
          simpl in Htrace;
          try destruct (marshal_ownership
                          (platform.MountSpecification.ownership_specification
                             returned));
          simpl in Htrace;
          apply app_inv_head in Htrace; injection Htrace as <-; exact Hcall. }
      rewrite Hkw in Himpl. injection Himpl as ->. clear Htrace.
      destruct (platform.MountSpecification.mounts value) as [| m [| m' rest]];
        unfold subscript, Nat.eqb; simpl; try reflexivity.
      destruct (truthy_path (platform.Mount.shared_path m)); simpl;
        [reflexivity |].
      destruct (marshal_ownership
                  (platform.MountSpecification.ownership_specification value));
        reflexivity. }
  20: {
    exists (fun spec : platform.MountSpecification.t =>
              match marshal_ownership
                      (platform.MountSpecification.ownership_specification spec) with
              | inl e => inl e
              | inr ownership =>
                  inr (VirtualMountSpecResponse ownership
                         (map VirtualOperations.to_protobuf_single_mount
                            (platform.MountSpecification.mounts spec)))
              end).
    intros request self trace impl kw value Hslot Htrace Himpl.
    unfold called in *; simpl in Hslot.
    unfold_methods; simpl in Htrace |- *; rewrite Hslot in Htrace |- *.
    repeat match goal with
           | |- context [from_dict_loads ?f ?s] =>
               destruct (from_dict_loads f s); simpl in Htrace |- *
           end;
      try (exfalso; eapply trace_grows; eassumption).
    match goal with
    | |- context [match impl ?x with inl _ => _ | inr _ => _ end] =>
        destruct (impl x) as [e | returned] eqn:Hcall; simpl in Htrace |- *
    end.
    - apply app_inv_head in Htrace; injection Htrace as <-.
      rewrite Hcall in Himpl. discriminate Himpl.
    - assert (Hkw : impl kw = inr returned).
      { destruct (marshal_ownership
                    (platform.MountSpecification.ownership_specification returned));
          simpl in Htrace;
          apply app_inv_head in Htrace; injection Htrace as <-; exact Hcall. }
      rewrite Hkw in Himpl. injection Himpl as ->. clear Htrace.
      destruct (marshal_ownership
                  (platform.MountSpecification.ownership_specification value));
        reflexivity. }
  all: eexists;
    intros request self trace impl kw value Hslot Htrace Himpl;
    unfold called in *; simpl in Hslot;
    unfold_methods; simpl in Htrace |- *; rewrite Hslot in Htrace |- *;
    repeat match goal with
           | |- context [from_dict_loads ?f ?s] =>
               destruct (from_dict_loads f s); simpl in Htrace |- *
           end;
    try (exfalso; eapply trace_grows; eassumption);
    match goal with
    | |- context [match ?f ?x with inl _ => _ | inr _ => _ end] =>
        destruct (f x) as [e | returned] eqn:Hcall; simpl in Htrace |- *
    end;
    apply app_inv_head in Htrace; injection Htrace as <-;
    rewrite Hcall in Himpl; try discriminate Himpl;
    injection Himpl as ->; reflexivity.
Qed.

(** X10: what a wrapper answers after the call is made of what the
    implementation returned and of nothing else.  Two calls of the same
    wrapper, on any two requests, plugins and traces, whose
    implementations returned the same value, end in the same response or
    the same exception. *)
Theorem response_from_return_value (op : Operation)
    (request1 request2 : Request.t) (self1 self2 : Plugin.t)
    (trace1 trace2 : list Call)
    (impl1 impl2 : Implementation (returns (slot_of op))) (kw1 kw2 : Kwargs)
    (value : returns (slot_of op)) :
  bound (slot_of op) self1 = Some impl1 ->
  bound (slot_of op) self2 = Some impl2 ->
  snd (fst (dispatch op request1 self1 trace1)) = (trace1 ++ [called op kw1])%list ->
  snd (fst (dispatch op request2 self2 trace2)) = (trace2 ++ [called op kw2])%list ->
  impl1 kw1 = inr value ->
  impl2 kw2 = inr value ->
  snd (dispatch op request1 self1 trace1) = snd (dispatch op request2 self2 trace2).
Proof.
  intros Hslot1 Hslot2 Htrace1 Htrace2 Himpl1 Himpl2.
  destruct (outcome_of_return_value op) as [marshal Hmarshal].
  rewrite (Hmarshal _ _ _ _ _ _ Hslot1 Htrace1 Himpl1).
  rewrite (Hmarshal _ _ _ _ _ _ Hslot2 Htrace2 Himpl2).
  reflexivity.
Qed.

(** X11: the names of the keyword arguments of a call are fixed by the
    wrapper: whenever a wrapper calls, the keywords are those of its
    operation, in its order, whatever the request and the plugin. *)
Theorem call_keywords (op : Operation) (request : Request.t)
    (self : Plugin.t) (trace : list Call) (kw : Kwargs) :
  snd (fst (dispatch op request self trace)) = (trace ++ [called op kw])%list ->
  map fst kw = keywords op.
Proof.
  intros Htrace.
  destruct op; unfold called in *; unfold_methods; simpl in Htrace;
    match goal with
    | H : context [match ?slot with Some _ => _ | None => _ end] |- _ =>
        destruct slot
    end;
    split_run;
    try (exfalso; eapply trace_grows; eassumption);
    apply app_inv_head in Htrace; injection Htrace as <-; reflexivity.
Qed.

End Wrappers.

(** ** Wrapper by wrapper *)

Section Marshalling.
Context {I : Imports}.
Import platform_pb2 Plugin.

(** X12: repository discovery reads no payload, so no request makes it
    fail before the call.  With the slot bound, the response has one entry
    for each repository the implementation returned, in the same order,
    none for the empty list, and the payload of each entry is
    [json.dumps] of the repository's [to_dict]. *)
Theorem repository_discovery_lists (request : Request.t) (self : Plugin.t)
    (trace : list Call) (impl : Implementation (list RepositoryDefinition))
    (repositories : list RepositoryDefinition) :
  bound discovery_repository self = Some impl ->
  impl [("source_connection", PyRemoteConnection (Request.source_connection request))]
    = inr repositories ->
  exists entries,
    dispatch repository_discovery request self trace
    = (self,
       (trace ++ [called repository_discovery
                    [("source_connection",
                      PyRemoteConnection (Request.source_connection request))]])%list,
       inr (RepositoryDiscoveryResponse entries))
    /\ length entries = length repositories
    /\ forall i repository,
         nth_error repositories i = Some repository ->
         exists entry,
           nth_error entries i = Some entry
           /\ common_pb2.PluginDefinedObject.json (common_pb2.Repository.parameters entry)
              = json_dumps (RepositoryDefinition_to_dict repository).
Proof.
  intros Hslot Himpl.
  exists (map DiscoveryOperations.to_protobuf_repository repositories).
  split; [| split].
  - unfold called. unfold_methods. simpl in Hslot |- *.
    rewrite Hslot. simpl. rewrite Himpl. simpl.
    rewrite plugin_eta. reflexivity.
  - apply length_map.
  - intros i repository Hnth.
    exists (DiscoveryOperations.to_protobuf_repository repository). split.
    + rewrite nth_error_map, Hnth. reflexivity.
    + reflexivity.
Qed.

(** X13: source config discovery, with the slot bound and the repository
    of the request deserializing, passes the connection and the
    deserialized repository, and answers one entry for each source config
    returned, in the same order, each with [json.dumps] of its [to_dict]
    as payload. *)
Theorem source_config_discovery_lists (request : Request.t) (self : Plugin.t)
    (trace : list Call) (impl : Implementation (list SourceConfigDefinition))
    (repository : RepositoryDefinition)
    (source_configs : list SourceConfigDefinition) :
  bound discovery_source_config self = Some impl ->
  from_dict_loads RepositoryDefinition_from_dict (repository_json request)
    = inr repository ->
  impl [("source_connection", PyRemoteConnection (Request.source_connection request));
        ("repository", PyRepositoryDefinition repository)]
    = inr source_configs ->
  exists entries,
    dispatch source_config_discovery request self trace
    = (self,
       (trace ++ [called source_config_discovery
                    [("source_connection",
                      PyRemoteConnection (Request.source_connection request));
                     ("repository", PyRepositoryDefinition repository)]])%list,
       inr (SourceConfigDiscoveryResponse entries))
    /\ length entries = length source_configs
    /\ forall i source_config,
         nth_error source_configs i = Some source_config ->
         exists entry,
           nth_error entries i = Some entry
           /\ common_pb2.PluginDefinedObject.json
                (common_pb2.SourceConfig.parameters entry)
              = json_dumps (SourceConfigDefinition_to_dict source_config).
Proof.
  intros Hslot Hrepository Himpl.
  exists (map DiscoveryOperations.to_protobuf_source_config source_configs).
  split; [| split].
  - unfold called. unfold_methods. simpl in Hslot |- *.
    rewrite Hslot, Hrepository. simpl. rewrite Himpl. simpl.
    rewrite plugin_eta. reflexivity.
  - apply length_map.
  - intros i source_config Hnth.
    exists (DiscoveryOperations.to_protobuf_source_config source_config). split.
    + rewrite nth_error_map, Hnth. reflexivity.
    + reflexivity.
Qed.

(** X14: with [reconfigure] bound and the three payloads of the request
    deserializing, the wrapper calls the implementation with the keyword
    arguments [snapshot], [source_config] and [virtual_source], and the
    payload of the response is [json.dumps] of the returned definition's
    [to_dict]. *)
Theorem reconfigure_end_to_end (request : Request.t) (self : Plugin.t)
    (trace : list Call) (impl : Implementation SourceConfigDefinition)
    (parameters : VirtualSourceDefinition) (snapshot : SnapshotDefinition)
    (source_config config : SourceConfigDefinition) :
  bound virtual_reconfigure self = Some impl ->
  from_dict_loads VirtualSourceDefinition_from_dict (virtual_source_json request)
    = inr parameters ->
  from_dict_loads SnapshotDefinition_from_dict (snapshot_json request)
    = inr snapshot ->
  from_dict_loads SourceConfigDefinition_from_dict (source_config_json request)
    = inr source_config ->
  impl (reconfigure_kwargs request parameters snapshot source_config) = inr config ->
  dispatch reconfigure request self trace
  = (self,
     (trace ++ [called reconfigure
                  (reconfigure_kwargs request parameters snapshot source_config)])%list,
     inr (ReconfigureResponse
            {| common_pb2.SourceConfig.parameters :=
                 {| common_pb2.PluginDefinedObject.json :=
                      json_dumps (SourceConfigDefinition_to_dict config) |} |})).
Proof.
  intros Hslot Hsource Hsnapshot Hconfig Himpl.
  unfold reconfigure_kwargs in Himpl. unfold called, reconfigure_kwargs.
  unfold_methods. simpl in Hslot |- *.
  rewrite Hslot, Hsource, Hsnapshot, Hconfig. simpl.
  rewrite Himpl. simpl.
  rewrite plugin_eta. reflexivity.
Qed.

(** X15: the three post-snapshot wrappers answer the snapshot the
    implementation returned, as [json.dumps] of its [to_dict]; the direct
    and the staged wrapper serve the same slot, [linked.post_snapshot]. *)
Theorem post_snapshot_payload (request : Request.t) (self : Plugin.t)
    (trace : list Call) (kw : Kwargs) (snapshot : SnapshotDefinition) :
  (forall impl,
      bound linked_post_snapshot self = Some impl ->
      impl kw = inr snapshot ->
      (snd (fst (dispatch direct_post_snapshot request self trace))
         = (trace ++ [called direct_post_snapshot kw])%list ->
       snd (dispatch direct_post_snapshot request self trace)
       = inr (DirectPostSnapshotResponse
                {| common_pb2.Snapshot.parameters :=
                     {| common_pb2.PluginDefinedObject.json :=
                          json_dumps (SnapshotDefinition_to_dict snapshot) |} |}))
      /\ (snd (fst (dispatch staged_post_snapshot request self trace))
            = (trace ++ [called staged_post_snapshot kw])%list ->
          snd (dispatch staged_post_snapshot request self trace)
          = inr (StagedPostSnapshotResponse
                   {| common_pb2.Snapshot.parameters :=
                        {| common_pb2.PluginDefinedObject.json :=
                             json_dumps (SnapshotDefinition_to_dict snapshot) |} |})))
  /\ (forall impl,
        bound virtual_post_snapshot self = Some impl ->
        impl kw = inr snapshot ->
        snd (fst (dispatch virtual_post_snapshot_op request self trace))
          = (trace ++ [called virtual_post_snapshot_op kw])%list ->
        snd (dispatch virtual_post_snapshot_op request self trace)
        = inr (VirtualPostSnapshotResponse
                 {| common_pb2.Snapshot.parameters :=
                      {| common_pb2.PluginDefinedObject.json :=
                           json_dumps (SnapshotDefinition_to_dict snapshot) |} |})).
Proof.
  split; [intros impl Hslot Himpl; split | intros impl Hslot Himpl];
    intros Htrace; unfold called in *; simpl in Hslot;
    unfold_methods; simpl in Htrace |- *; rewrite Hslot in Htrace |- *;
    split_run;
    try (exfalso; eapply trace_grows; eassumption);
    apply app_inv_head in Htrace; injection Htrace as <-;
    match goal with
    | H1 : ?t = inl _, H2 : ?t = inr _ |- _ => rewrite H1 in H2; discriminate H2
    | H1 : ?t = inr _, H2 : ?t = inr _ |- _ =>
        rewrite H1 in H2; injection H2 as ->; reflexivity
    end.
Qed.

(** X16: whether pre-snapshot is required belongs to the wrapper, not to
    the slot.  The direct and the staged wrapper look at the same slot,
    [linked.pre_snapshot]: while it is unbound the direct wrapper raises
    and the staged wrapper answers its empty result; once it is bound both
    call the implementation in it, the direct one with [direct_source] and
    the staged one with [staged_source] as first keyword. *)
Theorem pre_snapshot_slot_shared (request : Request.t) (self : Plugin.t)
    (trace : list Call) :
  deserializable direct_pre_snapshot request = true ->
  deserializable staged_pre_snapshot request = true ->
  (bound linked_pre_snapshot self = None ->
   dispatch direct_pre_snapshot request self trace
   = (self, trace, inl (not_defined "linked.pre_snapshot"))
   /\ dispatch staged_pre_snapshot request self trace
      = (self, trace, inr StagedPreSnapshotResponse))
  /\ (forall impl,
        bound linked_pre_snapshot self = Some impl ->
        exists direct_source staged_source repository source_config,
          snd (fst (dispatch direct_pre_snapshot request self trace))
          = (trace ++ [{| operation := "linked.pre_snapshot";
                          kwargs :=
                            [("direct_source", PyDirectSource direct_source);
                             ("repository", PyRepositoryDefinition repository);
                             ("source_config",
                              PySourceConfigDefinition source_config)] |}])%list
          /\ snd (fst (dispatch staged_pre_snapshot request self trace))
             = (trace ++ [{| operation := "linked.pre_snapshot";
                             kwargs :=
                               [("staged_source", PyStagedSource staged_source);
                                ("repository", PyRepositoryDefinition repository);
                                ("source_config",
                                 PySourceConfigDefinition source_config)] |}])%list).
Proof.
  unfold deserializable, loads_ok. intros Hdirect Hstaged.
  destruct (from_dict_loads LinkedSourceDefinition_from_dict
              (direct_source_json request)) as [| direct_definition] eqn:Hd;
    [discriminate Hdirect |].
  destruct (from_dict_loads LinkedSourceDefinition_from_dict
              (staged_source_json request)) as [| staged_definition] eqn:Hs;
    [discriminate Hstaged |].
  destruct (from_dict_loads RepositoryDefinition_from_dict
              (repository_json request)) as [| repository] eqn:Hr;
    [discriminate Hdirect |].
  destruct (from_dict_loads SourceConfigDefinition_from_dict
              (source_config_json request)) as [| source_config] eqn:Hc;
    [discriminate Hdirect |].
  clear Hdirect Hstaged.
  split.
  - intros Hslot. simpl in Hslot. unfold_methods. simpl.
    rewrite Hslot, Hd, Hr, Hc. simpl. rewrite plugin_eta.
    split; reflexivity.
  - intros impl Hslot. simpl in Hslot.
    exists (new_DirectSource request direct_definition),
           (new_StagedSource request staged_definition (new_Mount request)),
           repository, source_config.
    unfold_methods. simpl.
    rewrite Hslot, Hd, Hs, Hr, Hc. simpl.
    split.
    + destruct (impl _); reflexivity.
    + destruct (impl _); reflexivity.
Qed.

(** X17: the mount of the request, returned as the one mount of the
    staged mount specification, comes back unchanged when its shared path
    is empty and the ownership, if any, fits the integer fields of the
    schema, and is refused with AssertionError when its shared path is not
    empty. *)
Theorem staged_mount_round_trip (request : Request.t) (self : Plugin.t)
    (trace : list Call) (impl : Implementation platform.MountSpecification.t)
    (parameters : LinkedSourceDefinition) (repository : RepositoryDefinition)
    (spec : platform.MountSpecification.t) :
  bound linked_mount_specification self = Some impl ->
  from_dict_loads LinkedSourceDefinition_from_dict (staged_source_json request)
    = inr parameters ->
  from_dict_loads RepositoryDefinition_from_dict (repository_json request)
    = inr repository ->
  impl (staged_mount_kwargs request parameters repository) = inr spec ->
  platform.MountSpecification.mounts spec = [new_Mount request] ->
  (common_pb2.SingleEntireMount.shared_path
     (common_pb2.StagedSource.staged_mount (Request.staged_source request))
   = EmptyString ->
   ownership_in_range (platform.MountSpecification.ownership_specification spec)
     = true ->
   snd (dispatch staged_mount_spec request self trace)
   = inr (StagedMountSpecResponse
            (common_pb2.StagedSource.staged_mount (Request.staged_source request))
            (ownership_copy
               (platform.MountSpecification.ownership_specification spec))))
  /\ (common_pb2.SingleEntireMount.shared_path
        (common_pb2.StagedSource.staged_mount (Request.staged_source request))
      <> EmptyString ->
      snd (dispatch staged_mount_spec request self trace) = inl AssertionError).
Proof.
  intros Hslot Hsource Hrepository Himpl Hmounts.
  erewrite staged_mount_specification_run; [| eassumption ..].
  rewrite Hmounts. unfold new_Mount, truthy_path. simpl.
  destruct (common_pb2.StagedSource.staged_mount (Request.staged_source request))
    as [env path shared].
  simpl. split.
  - intros -> Hrange. simpl.
    rewrite (marshal_ownership_in_range _ Hrange). reflexivity.
  - intros Hshared. destruct shared; [contradiction Hshared; reflexivity |].
    reflexivity.
Qed.

(** X20: an ownership whose uid or gid does not fit the integer fields of
    the schema makes both mount-specification wrappers raise ValueError
    after the call: the virtual wrapper whatever the mounts, since it
    marshals the ownership first; the staged wrapper once the one mount
    has passed the count and the assertion. *)
Theorem ownership_out_of_range_raises (request : Request.t) (self : Plugin.t)
    (trace : list Call) (impl : Implementation platform.MountSpecification.t)
    (repository : RepositoryDefinition) (spec : platform.MountSpecification.t) :
  from_dict_loads RepositoryDefinition_from_dict (repository_json request)
    = inr repository ->
  ownership_in_range (platform.MountSpecification.ownership_specification spec)
    = false ->
  (forall parameters,
      bound virtual_mount_specification self = Some impl ->
      from_dict_loads VirtualSourceDefinition_from_dict (virtual_source_json request)
        = inr parameters ->
      impl (virtual_mount_kwargs request parameters repository) = inr spec ->
      exists message,
        dispatch virtual_mount_spec request self trace
        = (self,
           (trace ++ [called virtual_mount_spec
                        (virtual_mount_kwargs request parameters repository)])%list,
           inl (OtherError "ValueError" message)))
  /\ (forall parameters m,
        bound linked_mount_specification self = Some impl ->
        from_dict_loads LinkedSourceDefinition_from_dict (staged_source_json request)
          = inr parameters ->
        impl (staged_mount_kwargs request parameters repository) = inr spec ->
        platform.MountSpecification.mounts spec = [m] ->
        truthy_path (platform.Mount.shared_path m) = false ->
        exists message,
          dispatch staged_mount_spec request self trace
          = (self,
             (trace ++ [called staged_mount_spec
                          (staged_mount_kwargs request parameters repository)])%list,
             inl (OtherError "ValueError" message))).
Proof.
  intros Hrepository Hrange.
  destruct (marshal_ownership_out_of_range _ Hrange) as [message Hmessage].
  split.
  - intros parameters Hslot Hsource Himpl. exists message.
    erewrite virtual_mount_specification_run; [| eassumption ..].
    rewrite Hmessage. reflexivity.
  - intros parameters m Hslot Hsource Himpl Hmounts Hshared. exists message.
    erewrite staged_mount_specification_run; [| eassumption ..].
    rewrite Hmounts, Hshared, Hmessage. reflexivity.
Qed.

(** X18: a wrapper reads only the fields of its own request message.  Two
    requests that agree on those fields get the same outcome, plugin and
    trace, whatever their other fields hold. *)
Theorem dispatch_reads_own_fields (op : Operation) (request1 request2 : Request.t)
    (self : Plugin.t) (trace : list Call) :
  same_message op request1 request2 ->
  dispatch op request1 self trace = dispatch op request2 self trace.
Proof.
  intros Hsame.
  destruct op; simpl in Hsame;
    repeat match goal with
           | H : _ /\ _ |- _ => destruct H
           end;
    unfold_methods;
    unfold repository_json, source_config_json, snapshot_json, direct_source_json,
      staged_source_json, virtual_source_json, new_DirectSource, new_Mount,
      new_StagedSource, new_VirtualSource;
    repeat match goal with
           | H : _ = _ |- _ => rewrite H; clear H
           end;
    reflexivity.
Qed.

End Marshalling.

(** * The registries at work on the example plugin *)

Import Example.

(** Registering [configure] twice on the example plugin. *)
Lemma register_twice_fails_witness :
  Plugin.bound Plugin.virtual_configure
    (registered Plugin.virtual_configure (returning version_1_0))
  = Some (returning version_1_0)
  /\ Plugin.register Plugin.virtual_configure raising
       (registered Plugin.virtual_configure (returning version_1_0)) []
     = (registered Plugin.virtual_configure (returning version_1_0), [],
        inl (RuntimeError
               "An implementation for virtual.configure() operation has already been defined."))
  /\ Plugin.bound Plugin.virtual_configure
       (fst (fst (Plugin.register Plugin.virtual_configure raising
                    (registered Plugin.virtual_configure (returning version_1_0)) [])))
     = Some (returning version_1_0).
Proof.
  split; [reflexivity |].
  apply (@register_twice_fails imports Plugin.virtual_configure
           (returning version_1_0) raising
           (registered Plugin.virtual_configure (returning version_1_0)) []).
  reflexivity.
Defined.

(** A new plugin asked to reconfigure, with payloads that deserialize. *)
Lemma required_unbound_fails_witness :
  required Plugin.reconfigure = true
  /\ Plugin.bound (Plugin.slot_of Plugin.reconfigure) Plugin.__init__ = None
  /\ exists e,
       Plugin.dispatch Plugin.reconfigure request Plugin.__init__ []
       = (Plugin.__init__, [], inl e)
       /\ (deserializable Plugin.reconfigure request = true ->
           e = RuntimeError
                 "An implementation for the virtual.reconfigure() operation has not been defined.")
       /\ (deserializable Plugin.reconfigure request = false ->
           deserialization_error Plugin.reconfigure request = Some e).
Proof.
  split; [reflexivity |]. split; [reflexivity |].
  apply (@required_unbound_fails imports Plugin.reconfigure request Plugin.__init__ []);
    reflexivity.
Defined.

(** C3, as stated, fails: a new plugin asked to configure with payloads that
    are not JSON raises the ValueError of [json.loads], not the RuntimeError
    of the unbound slot. *)
Lemma required_unbound_bad_payload :
  required Plugin.configure = true
  /\ Plugin.bound (Plugin.slot_of Plugin.configure) Plugin.__init__ = None
  /\ Plugin.dispatch Plugin.configure bad_request Plugin.__init__ []
     = (Plugin.__init__, [],
        inl (OtherError "ValueError" "No JSON object could be decoded"))
  /\ Plugin.dispatch Plugin.configure bad_request Plugin.__init__ []
     <> (Plugin.__init__, [], inl (UnimplementedOperationError Plugin.configure)).
Proof.
  split; [reflexivity |]. split; [reflexivity |]. split; [reflexivity |].
  discriminate.
Qed.

(** The status of a virtual source on a new plugin. *)
Lemma virtual_status_unbound_raises_witness :
  Plugin.bound Plugin.virtual_status Plugin.__init__ = None
  /\ Plugin.dispatch Plugin.virtual_status_op request Plugin.__init__ []
     = (Plugin.__init__, [],
        inl (OtherError "AttributeError"
               "type object 'VirtualStatusResponse' has no attribute 'ACTIVE'")).
Proof.
  split; [reflexivity |].
  apply (@virtual_status_unbound_raises imports request Plugin.__init__ []).
  reflexivity.
Defined.

(** The status of a staged source on a new plugin, asked with payloads that
    are not JSON. *)
Lemma optional_unbound_answers_witness :
  default_response Plugin.staged_status
  = Some (platform_pb2.StagedStatusResponse platform_pb2.ACTIVE)
  /\ Plugin.bound (Plugin.slot_of Plugin.staged_status) Plugin.__init__ = None
  /\ Plugin.dispatch Plugin.staged_status bad_request Plugin.__init__ []
     = (Plugin.__init__, [],
        inr (platform_pb2.StagedStatusResponse platform_pb2.ACTIVE)).
Proof.
  split; [reflexivity |]. split; [reflexivity |].
  apply (@optional_unbound_answers imports Plugin.staged_status bad_request
           Plugin.__init__ []);
    [reflexivity | discriminate | reflexivity].
Defined.


(** A [configure] that raises. *)
Lemma implementation_error_propagates_witness :
  Plugin.dispatch Plugin.configure request
    (registered Plugin.virtual_configure raising) []
  = (registered Plugin.virtual_configure raising,
     [called Plugin.configure
        (configure_kwargs request [("mode", "rw")] [("name", "Y")] [("name", "Z")])],
     inl (OtherError "IOError" "disk full")).
Proof.
  apply (@implementation_error_propagates imports Plugin.configure request
           (registered Plugin.virtual_configure raising) []
           raising
           (configure_kwargs request [("mode", "rw")] [("name", "Y")] [("name", "Z")])
           boom);
    reflexivity.
Defined.


(** The scenario of C8: [configure] returns the definition with version 1.0,
    the request carries connection X, repository Y and snapshot Z. *)
Lemma configure_end_to_end_witness :
  exists source_config,
    Plugin.dispatch Plugin.configure request
      (registered Plugin.virtual_configure (returning version_1_0)) []
    = (registered Plugin.virtual_configure (returning version_1_0),
       [called Plugin.configure
          (configure_kwargs request [("mode", "rw")] [("name", "Y")] [("name", "Z")])],
       inr (platform_pb2.ConfigureResponse source_config))
    /\ common_pb2.PluginDefinedObject.json
         (common_pb2.SourceConfig.parameters source_config)
       = dumps version_1_0
    /\ from_dict_loads SourceConfigDefinition_from_dict
         (common_pb2.PluginDefinedObject.json
            (common_pb2.SourceConfig.parameters source_config))
       = inr version_1_0.
Proof.
  apply (@configure_end_to_end imports request
           (registered Plugin.virtual_configure (returning version_1_0)) []
           (returning version_1_0)
           [("mode", "rw")] [("name", "Y")] [("name", "Z")] version_1_0);
    reflexivity.
Defined.

(** C6, as stated, fails: three mounts through the virtual wrapper, with an
    ownership whose uid is one past the largest the schema's field holds,
    end in the ValueError of the field, not in a response. *)
Lemma virtual_mounts_out_of_range_ownership :
  length (platform.MountSpecification.mounts (big_mount_spec three_mounts)) = 3
  /\ Plugin.bound Plugin.virtual_mount_specification
       (registered Plugin.virtual_mount_specification
          (returning (big_mount_spec three_mounts)))
     = Some (returning (big_mount_spec three_mounts))
  /\ snd (Plugin.dispatch Plugin.virtual_mount_spec request
            (registered Plugin.virtual_mount_specification
               (returning (big_mount_spec three_mounts))) [])
     = inl (OtherError "ValueError" "Value out of range: 2147483648")
  /\ ~ (exists response,
         snd (Plugin.dispatch Plugin.virtual_mount_spec request
                (registered Plugin.virtual_mount_specification
                   (returning (big_mount_spec three_mounts))) [])
         = inr response).
Proof.
  split; [reflexivity |]. split; [reflexivity |]. split; [reflexivity |].
  intros [response Hresponse]. discriminate Hresponse.
Qed.

(** Three mounts through the virtual wrapper. *)
Lemma virtual_mounts_in_order_witness :
  exists entries,
    Plugin.dispatch Plugin.virtual_mount_spec request
      (registered Plugin.virtual_mount_specification (returning (mount_spec three_mounts))) []
    = (registered Plugin.virtual_mount_specification (returning (mount_spec three_mounts)),
       [called Plugin.virtual_mount_spec
          (virtual_mount_kwargs request [("mode", "rw")] [("name", "Y")])],
       inr (platform_pb2.VirtualMountSpecResponse
              (Some {| common_pb2.OwnershipSpec.uid := 1001;
                       common_pb2.OwnershipSpec.gid := 1002 |})
              entries))
    /\ length entries = 3
    /\ forall i m,
         nth_error three_mounts i = Some m ->
         exists entry,
           nth_error entries i = Some entry
           /\ common_pb2.SingleSubsetMount.mount_path entry = platform.Mount.mount_path m
           /\ common_pb2.SingleSubsetMount.shared_path entry
              = path_string (platform.Mount.shared_path m)
           /\ common_pb2.SingleSubsetMount.remote_environment entry
              = platform.Mount.remote_environment m.
Proof.
  apply (@virtual_mounts_in_order imports request
           (registered Plugin.virtual_mount_specification
              (returning (mount_spec three_mounts))) []
           (returning (mount_spec three_mounts))
           [("mode", "rw")] [("name", "Y")] (mount_spec three_mounts));
    try reflexivity.
  simpl. lia.
Defined.

(** C1, as stated, fails: no mounts through the virtual wrapper is a
    response, not an error. *)
Lemma virtual_no_mounts_is_a_response :
  platform.MountSpecification.mounts (mount_spec []) = []
  /\ Plugin.bound Plugin.virtual_mount_specification
       (registered Plugin.virtual_mount_specification (returning (mount_spec [])))
     = Some (returning (mount_spec []))
  /\ snd (Plugin.dispatch Plugin.virtual_mount_spec request
            (registered Plugin.virtual_mount_specification (returning (mount_spec []))) [])
     = inr (platform_pb2.VirtualMountSpecResponse
              (Some {| common_pb2.OwnershipSpec.uid := 1001;
                       common_pb2.OwnershipSpec.gid := 1002 |})
              [])
  /\ ~ (exists e,
         snd (Plugin.dispatch Plugin.virtual_mount_spec request
                (registered Plugin.virtual_mount_specification
                   (returning (mount_spec []))) [])
         = inl e).
Proof.
  split; [reflexivity |]. split; [reflexivity |]. split; [reflexivity |].
  intros [e He]. discriminate He.
Qed.

(** No mounts through the virtual wrapper. *)
Lemma virtual_no_mounts_succeeds_witness :
  Plugin.dispatch Plugin.virtual_mount_spec request
    (registered Plugin.virtual_mount_specification (returning (mount_spec []))) []
  = (registered Plugin.virtual_mount_specification (returning (mount_spec [])),
     [called Plugin.virtual_mount_spec
        (virtual_mount_kwargs request [("mode", "rw")] [("name", "Y")])],
     inr (platform_pb2.VirtualMountSpecResponse
            (Some {| common_pb2.OwnershipSpec.uid := 1001;
                     common_pb2.OwnershipSpec.gid := 1002 |})
            [])).
Proof.
  apply (proj2 (@virtual_no_mounts_succeeds imports request
                  (registered Plugin.virtual_mount_specification
                     (returning (mount_spec []))) []
                  (returning (mount_spec []))
                  [("mode", "rw")] [("name", "Y")] (mount_spec [])
                  eq_refl eq_refl eq_refl eq_refl eq_refl)).
  reflexivity.
Defined.

(** C5, as stated, fails: exactly one mount through the staged wrapper,
    with a shared path, is not a response. *)
Lemma staged_one_shared_mount_fails :
  length (platform.MountSpecification.mounts (mount_spec [shared_mount])) = 1
  /\ Plugin.bound Plugin.linked_mount_specification
       (registered Plugin.linked_mount_specification
          (returning (mount_spec [shared_mount])))
     = Some (returning (mount_spec [shared_mount]))
  /\ snd (Plugin.dispatch Plugin.staged_mount_spec request
            (registered Plugin.linked_mount_specification
               (returning (mount_spec [shared_mount]))) [])
     = inl AssertionError
  /\ ~ (exists response,
         snd (Plugin.dispatch Plugin.staged_mount_spec request
                (registered Plugin.linked_mount_specification
                   (returning (mount_spec [shared_mount]))) [])
         = inr response).
Proof.
  split; [reflexivity |]. split; [reflexivity |]. split; [reflexivity |].
  intros [response Hresponse]. discriminate Hresponse.
Qed.

(** Two mounts, then one mount without a shared path, through the staged
    wrapper. *)
Lemma staged_exactly_one_mount_witness :
  Plugin.dispatch Plugin.staged_mount_spec request
    (registered Plugin.linked_mount_specification
       (returning (mount_spec [mount "/mnt/a" None; mount "/mnt/b" None]))) []
  = (registered Plugin.linked_mount_specification
       (returning (mount_spec [mount "/mnt/a" None; mount "/mnt/b" None])),
     [called Plugin.staged_mount_spec
        (staged_mount_kwargs request [] [("name", "Y")])],
     inl (RuntimeError "Exactly one mount must be provided for staging sources. Found 2"))
  /\ Plugin.dispatch Plugin.staged_mount_spec request
       (registered Plugin.linked_mount_specification
          (returning (mount_spec [mount "/mnt/a" None]))) []
     = (registered Plugin.linked_mount_specification
          (returning (mount_spec [mount "/mnt/a" None])),
        [called Plugin.staged_mount_spec
           (staged_mount_kwargs request [] [("name", "Y")])],
        inr (platform_pb2.StagedMountSpecResponse
               {| common_pb2.SingleEntireMount.remote_environment := environment;
                  common_pb2.SingleEntireMount.mount_path := "/mnt/a";
                  common_pb2.SingleEntireMount.shared_path := EmptyString |}
               (Some {| common_pb2.OwnershipSpec.uid := 1001;
                        common_pb2.OwnershipSpec.gid := 1002 |}))).
Proof.
  split.
  - apply (proj1 (@staged_exactly_one_mount imports request
             (registered Plugin.linked_mount_specification
                (returning (mount_spec [mount "/mnt/a" None; mount "/mnt/b" None]))) []
             (returning (mount_spec [mount "/mnt/a" None; mount "/mnt/b" None]))
             [] [("name", "Y")]
             (mount_spec [mount "/mnt/a" None; mount "/mnt/b" None])
             eq_refl eq_refl eq_refl eq_refl)).
    simpl. discriminate.
  - apply (proj2 (@staged_exactly_one_mount imports request
             (registered Plugin.linked_mount_specification
                (returning (mount_spec [mount "/mnt/a" None]))) []
             (returning (mount_spec [mount "/mnt/a" None]))
             [] [("name", "Y")]
             (mount_spec [mount "/mnt/a" None])
             eq_refl eq_refl eq_refl eq_refl) (mount "/mnt/a" None));
      reflexivity.
Defined.

(** One mount with a shared path through the staged wrapper. *)
Lemma staged_shared_path_unsupported_witness :
  Plugin.dispatch Plugin.staged_mount_spec request
    (registered Plugin.linked_mount_specification
       (returning (mount_spec [shared_mount]))) []
  = (registered Plugin.linked_mount_specification
       (returning (mount_spec [shared_mount])),
     [called Plugin.staged_mount_spec
        (staged_mount_kwargs request [] [("name", "Y")])],
     inl AssertionError).
Proof.
  apply (proj1 (@staged_shared_path_unsupported imports request
           (registered Plugin.linked_mount_specification
              (returning (mount_spec [shared_mount]))) [])
           (returning (mount_spec [shared_mount])) [] [("name", "Y")]
           (mount_spec [shared_mount]) shared_mount);
    reflexivity.
Defined.

(** ** More of the example plugin *)

(** The first registration of [configure] on a new plugin. *)
Lemma register_unbound_frame_witness :
  exists self',
    Plugin.register Plugin.virtual_configure (returning version_1_0) Plugin.__init__ []
    = (self', [], inr (returning version_1_0))
    /\ Plugin.bound Plugin.virtual_configure self' = Some (returning version_1_0)
    /\ forall s', s' <> Plugin.virtual_configure ->
                  Plugin.bound s' self' = Plugin.bound s' Plugin.__init__.
Proof.
  apply (@register_unbound_frame imports Plugin.virtual_configure
           (returning version_1_0) Plugin.__init__ []).
  reflexivity.
Defined.

(** [configure] and the staged status, registered in either order. *)
Lemma register_commutes_witness :
  fst (fst (Plugin.register Plugin.linked_status (returning platform.Status.INACTIVE)
              (fst (fst (Plugin.register Plugin.virtual_configure
                           (returning version_1_0) Plugin.__init__ []))) []))
  = fst (fst (Plugin.register Plugin.virtual_configure (returning version_1_0)
                (fst (fst (Plugin.register Plugin.linked_status
                             (returning platform.Status.INACTIVE)
                             Plugin.__init__ []))) [])).
Proof.
  apply (@register_commutes imports Plugin.virtual_configure Plugin.linked_status
           (returning version_1_0) (returning platform.Status.INACTIVE)
           Plugin.__init__ [] []).
  discriminate.
Defined.

(** A second registration, a call with a bad request and a registration
    elsewhere leave [configure] bound as it was. *)
Lemma bound_slot_is_kept_witness :
  Plugin.bound Plugin.virtual_configure
    (fst (run [Registration Plugin.virtual_configure raising;
               Invocation Plugin.configure bad_request;
               Registration Plugin.linked_status (returning platform.Status.INACTIVE);
               Invocation Plugin.configure request]
            (registered Plugin.virtual_configure (returning version_1_0)) []))
  = Some (returning version_1_0).
Proof.
  apply (@bound_slot_is_kept imports
           [Registration Plugin.virtual_configure raising;
            Invocation Plugin.configure bad_request;
            Registration Plugin.linked_status (returning platform.Status.INACTIVE);
            Invocation Plugin.configure request]
           Plugin.virtual_configure (returning version_1_0)
           (registered Plugin.virtual_configure (returning version_1_0)) []).
  reflexivity.
Defined.

(** [start], bound: called on the good request, not on the bad one. *)
Lemma bound_dispatch_unpacks_then_calls_witness :
  (exists kw,
      snd (fst (Plugin.dispatch Plugin.start request
                  (registered Plugin.virtual_start (returning tt)) []))
      = [called Plugin.start kw])
  /\ (exists e,
        Plugin.dispatch Plugin.start bad_request
          (registered Plugin.virtual_start (returning tt)) []
        = (registered Plugin.virtual_start (returning tt), [], inl e)).
Proof.
  split.
  - apply (proj1 (@bound_dispatch_unpacks_then_calls imports Plugin.start request
                    (registered Plugin.virtual_start (returning tt)) []
                    (returning tt) eq_refl)).
    reflexivity.
  - apply (proj2 (@bound_dispatch_unpacks_then_calls imports Plugin.start bad_request
                    (registered Plugin.virtual_start (returning tt)) []
                    (returning tt) eq_refl)).
    reflexivity.
Defined.

(** [configure] on a new plugin and on one with a staged status. *)
Lemma dispatch_reads_own_slot_witness :
  snd (Plugin.dispatch Plugin.configure request Plugin.__init__ [])
  = snd (Plugin.dispatch Plugin.configure request
           (registered Plugin.linked_status (returning platform.Status.INACTIVE)) [])
  /\ snd (fst (Plugin.dispatch Plugin.configure request Plugin.__init__ []))
     = snd (fst (Plugin.dispatch Plugin.configure request
                   (registered Plugin.linked_status
                      (returning platform.Status.INACTIVE)) [])).
Proof.
  apply (@dispatch_reads_own_slot imports Plugin.configure request Plugin.__init__
           (registered Plugin.linked_status (returning platform.Status.INACTIVE)) []).
  reflexivity.
Defined.

(** The response of a bound [stop_staging]. *)
Lemma empty_result_response_witness :
  snd (Plugin.dispatch Plugin.stop_staging request
         (registered Plugin.linked_stop_staging (returning tt)) [])
  = inr platform_pb2.StopStagingResponse
  /\ platform_pb2.StopStagingResponse = platform_pb2.StopStagingResponse.
Proof.
  split; [reflexivity |].
  apply (@empty_result_response imports Plugin.stop_staging request
           (registered Plugin.linked_stop_staging (returning tt)) []
           platform_pb2.StopStagingResponse platform_pb2.StopStagingResponse);
    reflexivity.
Defined.

(** A staged status that returns INACTIVE. *)
Lemma inactive_only_from_implementation_witness :
  exists impl kw,
    Plugin.bound Plugin.linked_status
      (registered Plugin.linked_status (returning platform.Status.INACTIVE))
    = Some impl
    /\ snd (fst (Plugin.dispatch Plugin.staged_status request
                   (registered Plugin.linked_status
                      (returning platform.Status.INACTIVE)) []))
       = [called Plugin.staged_status kw]
    /\ impl kw = inr platform.Status.INACTIVE.
Proof.
  apply (proj1 (@inactive_only_from_implementation imports request
                  (registered Plugin.linked_status
                     (returning platform.Status.INACTIVE)) [])).
  reflexivity.
Defined.

(** [configure] on two different requests, the same definition returned. *)
Lemma response_from_return_value_witness :
  snd (Plugin.dispatch Plugin.configure request
         (registered Plugin.virtual_configure (returning version_1_0)) [])
  = snd (Plugin.dispatch Plugin.configure other_request
           (registered Plugin.virtual_configure (returning version_1_0)) []).
Proof.
  apply (@response_from_return_value imports Plugin.configure request other_request
           (registered Plugin.virtual_configure (returning version_1_0))
           (registered Plugin.virtual_configure (returning version_1_0))
           [] []
           (returning version_1_0) (returning version_1_0)
           (configure_kwargs request [("mode", "rw")] [("name", "Y")] [("name", "Z")])
           (configure_kwargs other_request [] [("name", "Y2")] [("name", "Z2")])
           version_1_0);
    reflexivity.
Defined.

(** The keywords of a call of [reconfigure]. *)
Lemma call_keywords_witness :
  map fst (reconfigure_kwargs request [("mode", "rw")] [("name", "Z")] [("name", "C")])
  = ["snapshot"; "source_config"; "virtual_source"].
Proof.
  apply (@call_keywords imports Plugin.reconfigure request
           (registered Plugin.virtual_reconfigure (returning version_1_0)) []
           (reconfigure_kwargs request [("mode", "rw")] [("name", "Z")] [("name", "C")])).
  reflexivity.
Defined.

(** Two repositories discovered, on a request whose payloads are not JSON. *)
Lemma repository_discovery_lists_witness :
  exists entries,
    Plugin.dispatch Plugin.repository_discovery bad_request
      (registered Plugin.discovery_repository (returning two_repositories)) []
    = (registered Plugin.discovery_repository (returning two_repositories),
       [called Plugin.repository_discovery
          [("source_connection", @PyRemoteConnection imports "X")]],
       inr (platform_pb2.RepositoryDiscoveryResponse entries))
    /\ length entries = 2
    /\ forall i repository,
         nth_error two_repositories i = Some repository ->
         exists entry,
           nth_error entries i = Some entry
           /\ common_pb2.PluginDefinedObject.json (common_pb2.Repository.parameters entry)
              = dumps repository.
Proof.
  apply (@repository_discovery_lists imports bad_request
           (registered Plugin.discovery_repository (returning two_repositories)) []
           (returning two_repositories) two_repositories);
    reflexivity.
Defined.

(** Two source configs discovered in repository Y. *)
Lemma source_config_discovery_lists_witness :
  exists entries,
    Plugin.dispatch Plugin.source_config_discovery request
      (registered Plugin.discovery_source_config (returning two_source_configs)) []
    = (registered Plugin.discovery_source_config (returning two_source_configs),
       [called Plugin.source_config_discovery
          [("source_connection", @PyRemoteConnection imports "X");
           ("repository", @PyRepositoryDefinition imports [("name", "Y")])]],
       inr (platform_pb2.SourceConfigDiscoveryResponse entries))
    /\ length entries = 2
    /\ forall i source_config,
         nth_error two_source_configs i = Some source_config ->
         exists entry,
           nth_error entries i = Some entry
           /\ common_pb2.PluginDefinedObject.json
                (common_pb2.SourceConfig.parameters entry)
              = dumps source_config.
Proof.
  apply (@source_config_discovery_lists imports request
           (registered Plugin.discovery_source_config (returning two_source_configs)) []
           (returning two_source_configs) [("name", "Y")] two_source_configs);
    reflexivity.
Defined.

(** [reconfigure] returning the definition with version 1.0. *)
Lemma reconfigure_end_to_end_witness :
  Plugin.dispatch Plugin.reconfigure request
    (registered Plugin.virtual_reconfigure (returning version_1_0)) []
  = (registered Plugin.virtual_reconfigure (returning version_1_0),
     [called Plugin.reconfigure
        (reconfigure_kwargs request [("mode", "rw")] [("name", "Z")] [("name", "C")])],
     inr (platform_pb2.ReconfigureResponse
            {| common_pb2.SourceConfig.parameters :=
                 {| common_pb2.PluginDefinedObject.json := dumps version_1_0 |} |})).
Proof.
  apply (@reconfigure_end_to_end imports request
           (registered Plugin.virtual_reconfigure (returning version_1_0)) []
           (returning version_1_0)
           [("mode", "rw")] [("name", "Z")] [("name", "C")] version_1_0);
    reflexivity.
Defined.

(** A staged post-snapshot. *)
Lemma post_snapshot_payload_witness :
  snd (Plugin.dispatch Plugin.staged_post_snapshot request
         (registered Plugin.linked_post_snapshot (returning version_1_0)) [])
  = inr (platform_pb2.StagedPostSnapshotResponse
           {| common_pb2.Snapshot.parameters :=
                {| common_pb2.PluginDefinedObject.json := dumps version_1_0 |} |}).
Proof.
  apply (proj2 (proj1 (@post_snapshot_payload imports request
                         (registered Plugin.linked_post_snapshot (returning version_1_0))
                         []
                         [("staged_source",
                           PyStagedSource (new_StagedSource request [] (new_Mount request)));
                          ("repository", @PyRepositoryDefinition imports [("name", "Y")]);
                          ("source_config", @PySourceConfigDefinition imports [("name", "C")])]
                         version_1_0)
                      (returning version_1_0) eq_refl eq_refl));
    reflexivity.
Defined.

(** Pre-snapshot on a new plugin: the direct wrapper raises, the staged one
    answers. *)
Lemma pre_snapshot_slot_shared_witness :
  Plugin.dispatch Plugin.direct_pre_snapshot request Plugin.__init__ []
  = (Plugin.__init__, [],
     inl (RuntimeError
            "An implementation for the linked.pre_snapshot() operation has not been defined."))
  /\ Plugin.dispatch Plugin.staged_pre_snapshot request Plugin.__init__ []
     = (Plugin.__init__, [], inr platform_pb2.StagedPreSnapshotResponse).
Proof.
  apply (proj1 (@pre_snapshot_slot_shared imports request Plugin.__init__ []
                  eq_refl eq_refl)).
  reflexivity.
Defined.

(** The mount of the request handed back. *)
Lemma staged_mount_round_trip_witness :
  snd (Plugin.dispatch Plugin.staged_mount_spec request
         (registered Plugin.linked_mount_specification
            (returning (mount_spec [new_Mount request]))) [])
  = inr (platform_pb2.StagedMountSpecResponse
           (common_pb2.StagedSource.staged_mount (platform_pb2.Request.staged_source request))
           (Some {| common_pb2.OwnershipSpec.uid := 1001;
                    common_pb2.OwnershipSpec.gid := 1002 |})).
Proof.
  apply (proj1 (@staged_mount_round_trip imports request
                  (registered Plugin.linked_mount_specification
                     (returning (mount_spec [new_Mount request]))) []
                  (returning (mount_spec [new_Mount request]))
                  [] [("name", "Y")] (mount_spec [new_Mount request])
                  eq_refl eq_refl eq_refl eq_refl eq_refl));
    reflexivity.
Defined.

(** Repository discovery reads the connection only. *)
Lemma dispatch_reads_own_fields_witness :
  Plugin.dispatch Plugin.repository_discovery request
    (registered Plugin.discovery_repository (returning two_repositories)) []
  = Plugin.dispatch Plugin.repository_discovery bad_request
      (registered Plugin.discovery_repository (returning two_repositories)) [].
Proof.
  apply (@dispatch_reads_own_fields imports Plugin.repository_discovery
           request bad_request
           (registered Plugin.discovery_repository (returning two_repositories)) []).
  reflexivity.
Defined.

(** One mount and an ownership with too large a uid, through the staged
    wrapper. *)
Lemma ownership_out_of_range_raises_witness :
  exists message,
    Plugin.dispatch Plugin.staged_mount_spec request
      (registered Plugin.linked_mount_specification
         (returning (big_mount_spec [mount "/mnt/a" None]))) []
    = (registered Plugin.linked_mount_specification
         (returning (big_mount_spec [mount "/mnt/a" None])),
       [called Plugin.staged_mount_spec
          (staged_mount_kwargs request [] [("name", "Y")])],
       inl (OtherError "ValueError" message)).
Proof.
  apply (proj2 (@ownership_out_of_range_raises imports request
                  (registered Plugin.linked_mount_specification
                     (returning (big_mount_spec [mount "/mnt/a" None]))) []
                  (returning (big_mount_spec [mount "/mnt/a" None]))
                  [("name", "Y")] (big_mount_spec [mount "/mnt/a" None])
                  eq_refl eq_refl)
           [] (mount "/mnt/a" None));
    reflexivity.
Defined.
